(** * Conversation orchestration core of backend-chatbot-tramtue

    A shallow embedding of the decision logic of
      - [app/services/human_timing.py]  (HumanTimingService),
      - [app/services/memory.py]        (MemoryEngine),
      - [app/services/orchestrator.py]  (Orchestrator routing and the
        failure path of [process_message]),
    followed by the properties the specification states about them.

    Modelling conventions.
      - A Python [str] is a list of Unicode code points ([list N]); [len] is
        [length].  Literals are written as UTF-8 Rocq strings and decoded by
        [py].
      - A Python [float] is an exact rational ([Q]): arithmetic, comparisons,
        [min] and [max] are those of the source with rounding error left out.
        [round(x, 1)] is round-half-even on tenths.
      - A Python [dict] with string keys is a [gmap str _]; a dict whose
        iteration order matters is an association list.
      - Code that can raise returns a [result]; code that mutates the
        persistence layer passes the store explicitly. *)

From Stdlib Require Import ZArith NArith QArith Qround Qminmax Lia Lqa List Ascii Bool.
From stdpp Require Import base option list strings gmap.
Import ListNotations.

Set Warnings "-register-all".

(** ** Python strings *)

Definition str := list N.

(** UTF-8 decoding of a literal; [need] continuation bytes are still expected
    for the code point accumulated in [acc]. *)
Fixpoint utf8_go (bs : list N) (need : nat) (acc : N) : str :=
  match bs with
  | [] => []
  | b :: bs' =>
      match need with
      | O =>
          if (b <? 128)%N then b :: utf8_go bs' 0 0%N
          else if (b <? 224)%N then utf8_go bs' 1 (N.land b 31)
          else if (b <? 240)%N then utf8_go bs' 2 (N.land b 15)
          else utf8_go bs' 3 (N.land b 7)
      | S n =>
          let acc' := (acc * 64 + N.land b 63)%N in
          match n with
          | O => acc' :: utf8_go bs' 0 0%N
          | S _ => utf8_go bs' n acc'
          end
      end
  end.

Definition py (s : String.string) : str :=
  utf8_go (map N_of_ascii (String.list_ascii_of_string s)) 0 0%N.
Arguments py s%_string.

Definition str_eqb (a b : str) : bool := bool_decide (a = b).

Definition in_range (lo hi c : N) : bool := ((lo <=? c) && (c <=? hi))%N.

(** [str.isspace] for one character; the [\s] class of [re] on [str]
    patterns is the same set. *)
Definition isspace (c : N) : bool :=
  in_range 9 13 c || in_range 28 32 c || (c =? 133)%N || (c =? 160)%N
  || (c =? 5760)%N || in_range 8192 8202 c || (c =? 8232)%N || (c =? 8233)%N
  || (c =? 8239)%N || (c =? 8287)%N || (c =? 12288)%N.

(** [\d] of [re]: decimal digits.  Only the ASCII digits are modelled. *)
Definition isdigit (c : N) : bool := in_range 48 57 c.

(** [str.lower] for one character, on ASCII, Latin-1 and the letters of the
    Vietnamese alphabet (U+0102/0110/0128/0168/01A0/01AF and U+1EA0..U+1EF9);
    other code points are left as they are. *)
Definition lower_cp (c : N) : N :=
  if in_range 65 90 c then (c + 32)%N
  else if in_range 192 222 c && negb (c =? 215)%N then (c + 32)%N
  else if (c =? 258)%N || (c =? 272)%N || (c =? 296)%N || (c =? 360)%N
          || (c =? 416)%N then (c + 1)%N
  else if (c =? 431)%N then 432%N
  else if in_range 7840 7929 c && N.even c then (c + 1)%N
  else c.

(** The inverse table, used by case-insensitive character classes. *)
Definition upper_cp (c : N) : N :=
  if in_range 97 122 c then (c - 32)%N
  else if in_range 224 254 c && negb (c =? 247)%N then (c - 32)%N
  else if (c =? 259)%N || (c =? 273)%N || (c =? 297)%N || (c =? 361)%N
          || (c =? 417)%N then (c - 1)%N
  else if (c =? 432)%N then 431%N
  else if in_range 7840 7929 c && N.odd c then (c - 1)%N
  else c.

Definition lower (s : str) : str := map lower_cp s.

Fixpoint starts_with (p s : str) : bool :=
  match p, s with
  | [], _ => true
  | _ :: _, [] => false
  | a :: p', b :: s' => (a =? b)%N && starts_with p' s'
  end.

(** [sub in s] *)
Fixpoint contains (sub s : str) : bool :=
  starts_with sub s ||
  match s with
  | [] => false
  | _ :: s' => contains sub s'
  end.

(** [s.count(c)] for a one-character [c] *)
Definition count_char (c : N) (s : str) : nat :=
  length (filter (fun x => (x =? c)%N = true) s).

(** [s.split()]: maximal runs of non-whitespace; [cur] is the run being read,
    reversed. *)
Fixpoint split_go (cur : str) (s : str) : list str :=
  match s with
  | [] => match cur with [] => [] | _ => [rev cur] end
  | c :: s' =>
      if isspace c
      then match cur with [] => split_go [] s' | _ => rev cur :: split_go [] s' end
      else split_go (c :: cur) s'
  end.

Definition split (s : str) : list str := split_go [] s.

Fixpoint lstrip (s : str) : str :=
  match s with
  | [] => []
  | c :: s' => if isspace c then lstrip s' else s
  end.

Definition rstrip (s : str) : str := rev (lstrip (rev s)).

Definition strip (s : str) : str := rstrip (lstrip s).

(** Truth value of a string: non-empty. *)
Definition nonempty (s : str) : bool :=
  match s with [] => false | _ => true end.

(** Python slices [w[:n]] and [w[n:]]: a negative [n] counts from the end. *)
Definition slice_index (w : str) (n : Z) : nat :=
  Z.to_nat (if (n <? 0)%Z then Z.max 0 (Z.of_nat (length w) + n) else n).

Definition slice_to (w : str) (n : Z) : str := take (slice_index w n) w.
Definition slice_from (w : str) (n : Z) : str := drop (slice_index w n) w.

(** ** Python values, exceptions *)

Inductive pyval :=
  | VNone
  | VBool (b : bool)
  | VInt (z : Z)
  | VFloat (q : Q)
  | VStr (s : str)
  | VList (l : list pyval)
  | VDict (d : gmap str pyval).

Inductive exn :=
  | AttributeError
  | TypeError
  | IndexError
  | ValidationError
  | ZeroDivisionError
  | ExternalError (msg : str).

Inductive result (A : Type) :=
  | Ok (a : A)
  | Raise (e : exn).
Arguments Ok {A} a.
Arguments Raise {A} e.

Definition bind {A B} (m : result A) (k : A -> result B) : result B :=
  match m with
  | Ok a => k a
  | Raise e => Raise e
  end.

Notation "x <- m ;; k" := (bind m (fun x => k))
  (at level 100, m at next level, right associativity).

(** ** Floats *)

(** [max(a, b)] and [min(a, b)] of Python: the first argument unless the
    second is strictly larger (smaller). *)
Definition py_max (a b : Q) : Q := if Qlt_le_dec a b then b else a.
Definition py_min (a b : Q) : Q := if Qlt_le_dec b a then b else a.

Definition round_half_even (q : Q) : Z :=
  let n := Qfloor q in
  let r := (q - inject_Z n)%Q in
  if Qlt_le_dec r (1 # 2) then n
  else if Qlt_le_dec (1 # 2) r then (n + 1)%Z
  else if Z.even n then n else (n + 1)%Z.

(** [round(q, 1)] *)
Definition round1 (q : Q) : Q := (inject_Z (round_half_even (q * 10)) / 10)%Q.

Definition Qsum (l : list Q) : Q := fold_right Qplus 0%Q l.

Definition of_nat (n : nat) : Q := inject_Z (Z.of_nat n).

(** ** human_timing.py *)

Inductive MessageComplexity := SIMPLE | MEDIUM | COMPLEX.

Inductive TypingPattern := FAST | NORMAL | SLOW | THINKING.

Definition complexity_value (c : MessageComplexity) : str :=
  match c with
  | SIMPLE => py "simple"
  | MEDIUM => py "medium"
  | COMPLEX => py "complex"
  end.

Definition pattern_value (p : TypingPattern) : str :=
  match p with
  | FAST => py "fast"
  | NORMAL => py "normal"
  | SLOW => py "slow"
  | THINKING => py "thinking"
  end.

(** [self.typing_speeds], words per minute *)
Definition typing_speeds (p : TypingPattern) : Z :=
  match p with
  | FAST => 70
  | NORMAL => 50
  | SLOW => 30
  | THINKING => 25
  end.

(** [self.base_delays] *)
Definition base_delays (c : MessageComplexity) : Q :=
  match c with
  | SIMPLE => 0.5
  | MEDIUM => 1.0
  | COMPLEX => 2.0
  end.

(** [self.pause_indicators]: . ! ? : ; *)
Definition pause_indicators : list N := [46; 33; 63; 58; 59]%N.

Definition thinking_words : list str :=
  [py "hmm"; py "well"; py "actually"; py "let me think"; py "you know";
   py "basically"; py "essentially"; py "obviously"; py "clearly"].

Definition complexity_factor (c : MessageComplexity) : Q :=
  match c with
  | SIMPLE => 0.8
  | MEDIUM => 1.0
  | COMPLEX => 1.3
  end.

Definition base_thinking (c : MessageComplexity) : Q :=
  match c with
  | SIMPLE => 0.2
  | MEDIUM => 0.5
  | COMPLEX => 1.0
  end.

Definition _calculate_thinking_time (message : str) (complexity : MessageComplexity) : Q :=
  let thinking_time := (0.0 + base_thinking complexity)%Q in
  let message_lower := lower message in
  let thinking_time :=
    fold_left (fun t word => if contains word message_lower then (t + 0.3)%Q else t)
              thinking_words thinking_time in
  let thinking_time :=
    if contains (py "?") message then (thinking_time + 0.5)%Q else thinking_time in
  if existsb isdigit message then (thinking_time + 0.3)%Q else thinking_time.

Definition _calculate_pause_time (message : str) : Q :=
  let pause_time :=
    fold_left
      (fun t indicator =>
         let count := of_nat (count_char indicator message) in
         if existsb (N.eqb indicator) [46; 33; 63]%N
         then (t + count * 0.3)%Q
         else (t + count * 0.1)%Q)
      pause_indicators 0.0%Q in
  let line_breaks := of_nat (count_char 10 message) in
  (pause_time + line_breaks * 0.2)%Q.

Definition word_count (message : str) : nat := length (split message).

Definition calculate_typing_delay
    (message : str) (complexity : MessageComplexity) (pattern : TypingPattern) : Q :=
  let wpm := typing_speeds pattern in
  let base_time := ((of_nat (word_count message) / inject_Z wpm) * 60)%Q in
  let typing_time := (base_time * complexity_factor complexity)%Q in
  let thinking_time := _calculate_thinking_time message complexity in
  let pause_time := _calculate_pause_time message in
  let total_time := (typing_time + thinking_time + pause_time)%Q in
  let min_time := 0.5%Q in
  let max_time := 8.0%Q in
  let final_time := py_max min_time (py_min total_time max_time) in
  round1 final_time.

(** [re.split(r'([.!?]+)', s)]: the text pieces with the runs of sentence
    marks between them, a run at the end being followed by an empty piece.
    [cur] is the piece being read, reversed; [in_marks] tells whether it is a
    run of marks. *)
Definition is_mark (c : N) : bool := (c =? 46)%N || (c =? 33)%N || (c =? 63)%N.

Fixpoint re_split_go (in_marks : bool) (cur : str) (s : str) : list str :=
  match s with
  | [] => if in_marks then [rev cur; []] else [rev cur]
  | c :: s' =>
      if is_mark c
      then (if in_marks then re_split_go true (c :: cur) s'
            else rev cur :: re_split_go true [c] s')
      else (if in_marks then rev cur :: re_split_go false [c] s'
            else re_split_go false (c :: cur) s')
  end.

Definition re_split_marks (s : str) : list str := re_split_go false [] s.

(** [re.split(r'[.!?]+', s)]: without the group only the text pieces are
    returned. *)
Fixpoint text_pieces (pieces : list str) : list str :=
  match pieces with
  | [] => []
  | [t] => [t]
  | t :: _ :: rest => t :: text_pieces rest
  end.

(** The [sentence] of each turn of [for i in range(0, len(sentences), 2)]. *)
Fixpoint sentences_of (pieces : list str) : list str :=
  match pieces with
  | [] => []
  | [t] => [t]
  | t :: m :: rest => (t ++ m) :: sentences_of rest
  end.

Definition len (s : str) : Z := Z.of_nat (length s).

(** One turn of the loop of [_split_by_words] on [(chunks, current_chunk)]. *)
Definition words_step (max_length : Z) (st : list str * str) (word : str)
  : list str * str :=
  let '(chunks, current_chunk) := st in
  if (len (current_chunk ++ py " " ++ word) <=? max_length)%Z then
    if nonempty current_chunk
    then (chunks, current_chunk ++ py " " ++ word)
    else (chunks, word)
  else
    if nonempty current_chunk
    then (chunks ++ [current_chunk], word)
    else (chunks ++ [slice_to word max_length], slice_from word max_length).

Definition _split_by_words (text : str) (max_length : Z) : list str :=
  let words := split text in
  let '(chunks, current_chunk) := fold_left (words_step max_length) words ([], []) in
  if nonempty current_chunk then chunks ++ [current_chunk] else chunks.

(** One turn of the sentence loop of [split_long_message]. *)
Definition sentence_step (max_length : Z) (st : list str * str) (sentence : str)
  : list str * str :=
  let '(chunks, current_chunk) := st in
  if (len (current_chunk ++ sentence) <=? max_length)%Z then
    (chunks, current_chunk ++ sentence)
  else
    if nonempty current_chunk
    then (chunks ++ [strip current_chunk], sentence)
    else (chunks ++ _split_by_words sentence max_length, current_chunk).

Definition split_long_message
    (message : str) (max_length : Z) (preserve_sentences : bool) : list str :=
  if (len message <=? max_length)%Z then [message]
  else
    let chunks :=
      if preserve_sentences then
        let sentences := re_split_marks message in
        let '(chunks, current_chunk) :=
          fold_left (sentence_step max_length) (sentences_of sentences) ([], []) in
        if nonempty current_chunk then chunks ++ [strip current_chunk] else chunks
      else _split_by_words message max_length in
    map strip (filter (fun chunk => nonempty (strip chunk) = true) chunks).

Definition determine_complexity (message : str) : MessageComplexity :=
  let word_count := length (split message) in
  let sentence_count :=
    length (filter (fun s => nonempty (strip s) = true)
                   (text_pieces (re_split_marks message))) in
  if (word_count <=? 10)%nat && (sentence_count <=? 1)%nat then SIMPLE
  else if (word_count <=? 50)%nat && (sentence_count <=? 3)%nat then MEDIUM
  else COMPLEX.

Definition agent_patterns : list (str * TypingPattern) :=
  [(py "discovery", NORMAL); (py "customer_service", FAST); (py "sales", FAST);
   (py "handoff_human", SLOW); (py "followup", NORMAL); (py "general_chat", NORMAL)].

(** [d.get(key, default)] on a table written as a literal *)
Fixpoint table_get {A} (d : list (str * A)) (key : str) (default : A) : A :=
  match d with
  | [] => default
  | (k, v) :: d' => if str_eqb k key then v else table_get d' key default
  end.

Definition determine_typing_pattern
    (agent_type : str) (message_complexity : MessageComplexity) : TypingPattern :=
  let base_pattern := table_get agent_patterns agent_type NORMAL in
  match message_complexity, base_pattern with
  | COMPLEX, FAST => NORMAL
  | COMPLEX, NORMAL => THINKING
  | _, _ => base_pattern
  end.

(** The dict returned by [simulate_typing] *)
Record TypingData := {
  total_delay : Q;
  complexity : str;
  pattern : str;
  chunks : list str;
  chunk_count : nat
}.

(** The delays of all chunks but the last; returns them with what is left of
    [remaining_delay]. *)
Fixpoint distribute_loop (lengths : list nat) (total_length : nat)
    (total_delay : Q) (delays : list Q) (remaining_delay : Q)
  : result (list Q * Q) :=
  match lengths with
  | [] => Ok (delays, remaining_delay)
  | length :: rest =>
      if (total_length =? 0)%nat then Raise ZeroDivisionError
      else
        let weight := (of_nat length / of_nat total_length)%Q in
        let delay := (total_delay * weight)%Q in
        distribute_loop rest total_length total_delay
                        (delays ++ [delay]) (remaining_delay - delay)%Q
  end.

Definition _distribute_delay (chunks : list str) (total_delay : Q) : result (list Q) :=
  match chunks with
  | [] => Ok []
  | [_] => Ok [total_delay]
  | _ =>
      let chunk_lengths := map (@length N) chunks in
      let total_length := list_sum chunk_lengths in
      r <- distribute_loop (removelast chunk_lengths) total_length
                           total_delay [] total_delay ;;
      let '(delays, remaining_delay) := r in
      Ok (delays ++ [py_max 0.1 remaining_delay])
  end.

(** What the callback of [simulate_typing] sees, with the sleeps in between. *)
Inductive TypingEvent :=
  | typing_start (chunk_index total_chunks : nat)
  | sleep (delay : Q)
  | chunk_ready (chunk : str) (chunk_index total_chunks : nat) (is_final : bool)
  | typing_complete (total_time : Q).

Fixpoint typing_events (i total : nat) (cds : list (str * Q)) : list TypingEvent :=
  match cds with
  | [] => []
  | (chunk, delay) :: rest =>
      [typing_start i total; sleep delay;
       chunk_ready chunk i total (i =? total - 1)%nat]
      ++ typing_events (S i) total rest
  end.

Definition _simulate_real_time_typing (chunks : list str) (total_delay : Q)
  : result (list TypingEvent) :=
  chunk_delays <- _distribute_delay chunks total_delay ;;
  Ok (typing_events 0 (length chunks) (combine chunks chunk_delays)
      ++ [typing_complete total_delay]).

(** [simulate_typing]; [callback] tells whether a callback was given, in which
    case the events it receives are returned with the data. *)
Definition simulate_typing (message : str) (agent_type : str) (callback : bool)
  : result (TypingData * list TypingEvent) :=
  let complexity := determine_complexity message in
  let pattern := determine_typing_pattern agent_type complexity in
  let total_delay := calculate_typing_delay message complexity pattern in
  let chunks := split_long_message message 200 true in
  let typing_data :=
    {| total_delay := total_delay;
       complexity := complexity_value complexity;
       pattern := pattern_value pattern;
       chunks := chunks;
       chunk_count := length chunks |} in
  if callback then
    events <- _simulate_real_time_typing chunks total_delay ;;
    Ok (typing_data, events)
  else Ok (typing_data, []).

(** ** Regular expressions of [re]

    The patterns of the source are data; they are matched as [re] does:
    leftmost, greedy, backtracking.  No pattern of the source has more than
    one capturing group. *)

Inductive regex :=
  | Chr (c : N)
  | Cls (f : N -> bool)
  | Eps
  | Seq (r1 r2 : regex)
  | Alt (r1 r2 : regex)
  | Rep (r : regex) (lo : nat) (hi : option nat)
  | Grp (r : regex).

Definition lit (s : str) : regex := fold_right (fun c r => Seq (Chr c) r) Eps s.

Fixpoint seqs (rs : list regex) : regex :=
  match rs with
  | [] => Eps
  | [r] => r
  | r :: rs' => Seq r (seqs rs')
  end.

Fixpoint alts (rs : list regex) : regex :=
  match rs with
  | [] => Eps
  | [r] => r
  | r :: rs' => Alt r (alts rs')
  end.

Definition chr_eq (icase : bool) (c x : N) : bool :=
  if icase then (lower_cp c =? lower_cp x)%N else (c =? x)%N.

Definition cls_in (icase : bool) (f : N -> bool) (x : N) : bool :=
  f x || (icase && (f (lower_cp x) || f (upper_cp x))).

Definition below (count : nat) (hi : option nat) : bool :=
  match hi with
  | None => true
  | Some h => (count <? h)%nat
  end.

(** [rmatch icase r s cap k]: match [r] at the start of [s] and hand the rest
    of [s] and the group captured so far to [k]; when [k] fails the next
    alternative is tried. *)
Fixpoint rmatch {X} (icase : bool) (r : regex) (s : str) (cap : option str)
    (k : str -> option str -> option X) : option X :=
  match r with
  | Chr c =>
      match s with
      | x :: s' => if chr_eq icase c x then k s' cap else None
      | [] => None
      end
  | Cls f =>
      match s with
      | x :: s' => if cls_in icase f x then k s' cap else None
      | [] => None
      end
  | Eps => k s cap
  | Seq r1 r2 => rmatch icase r1 s cap (fun s' cap' => rmatch icase r2 s' cap' k)
  | Alt r1 r2 =>
      match rmatch icase r1 s cap k with
      | Some x => Some x
      | None => rmatch icase r2 s cap k
      end
  | Grp r1 =>
      rmatch icase r1 s cap
             (fun s' _ => k s' (Some (take (length s - length s') s)))
  | Rep r1 lo hi =>
      (fix loop (fuel count : nat) (s : str) (cap : option str) {struct fuel}
         : option X :=
         match fuel with
         | O => None
         | S fuel' =>
             let more :=
               if below count hi then
                 rmatch icase r1 s cap
                        (fun s' cap' =>
                           if (length s' <? length s)%nat
                           then loop fuel' (S count) s' cap'
                           else None)
               else None in
             match more with
             | Some x => Some x
             | None => if (lo <=? count)%nat then k s cap else None
             end
         end) (S (length s)) O s cap
  end.

(** A match at the start of [s]: the group and the rest of [s]. *)
Definition match_at (icase : bool) (r : regex) (s : str) : option (str * str) :=
  rmatch icase r s None (fun s' cap => Some (default [] cap, s')).

(** [re.search(r, s).group(1)] *)
Fixpoint re_search (icase : bool) (r : regex) (s : str) : option str :=
  match match_at icase r s with
  | Some (g, _) => Some g
  | None =>
      match s with
      | [] => None
      | _ :: s' => re_search icase r s'
      end
  end.

(** [re.findall(r, s)] for a pattern with one group *)
Fixpoint re_findall_go (fuel : nat) (icase : bool) (r : regex) (s : str) : list str :=
  match fuel with
  | O => []
  | S fuel' =>
      match match_at icase r s with
      | Some (g, s') =>
          if (length s' <? length s)%nat
          then g :: re_findall_go fuel' icase r s'
          else g :: match s with
                    | [] => []
                    | _ :: s1 => re_findall_go fuel' icase r s1
                    end
      | None =>
          match s with
          | [] => []
          | _ :: s1 => re_findall_go fuel' icase r s1
          end
      end
  end.

Definition re_findall (icase : bool) (r : regex) (s : str) : list str :=
  re_findall_go (S (length s)) icase r s.

(** [int(s)] on a string of ASCII digits *)
Definition int_of_digits (s : str) : Z :=
  fold_left (fun acc c => (acc * 10 + (Z.of_N c - 48))%Z) s 0%Z.

(** The class [[A-Za-zÀ-ỹ\s]] *)
Definition letter_or_space (c : N) : bool :=
  in_range 65 90 c || in_range 97 122 c || in_range 192 7929 c || isspace c.

Definition digits (lo : nat) (hi : option nat) : regex := Rep (Cls isdigit) lo hi.

Definition opt (r : regex) : regex := Rep r 0 (Some 1).

(** ** models/database.py and core/database.py: memories

    The persistence service is a table of rows held in [Database]; ids that
    the source draws with [uuid4] come from the counter [next_id], and
    [datetime.utcnow()] reads [clock].  Failures of the service itself are
    not modelled. *)

Record Memory := {
  m_id : nat;
  m_created_at : N;
  m_updated_at : N;
  m_user_id : str;
  m_key : str;
  m_value : pyval;
  m_confidence : Q;
  m_weight : Q;
  m_source : str;
  m_needs_confirmation : bool;
  m_confirmed_at : option N;
  m_expires_at : option N
}.

Record MemoryCreate := {
  mc_user_id : str;
  mc_key : str;
  mc_value : pyval;
  mc_confidence : Q;
  mc_weight : Q;
  mc_source : str;
  mc_needs_confirmation : bool;
  mc_expires_at : option N
}.

(** [Field(ge=0.0, le=1.0)] *)
Definition in_unit (q : Q) : bool := Qle_bool 0 q && Qle_bool q 1.

(** The constructor of the pydantic model [MemoryCreate], with its field
    validation. *)
Definition new_MemoryCreate (user_id key : str) (value : pyval)
    (confidence weight : Q) (source : str) (needs_confirmation : bool)
  : result MemoryCreate :=
  if in_unit confidence && in_unit weight then
    Ok {| mc_user_id := user_id; mc_key := key; mc_value := value;
          mc_confidence := confidence; mc_weight := weight;
          mc_source := source; mc_needs_confirmation := needs_confirmation;
          mc_expires_at := None |}
  else Raise ValidationError.

(** The constructor of the model [Memory] on a row read back: the same
    validation. *)
Definition validate_Memory (row : Memory) : result Memory :=
  if in_unit (m_confidence row) && in_unit (m_weight row) then Ok row
  else Raise ValidationError.

Record Database := {
  memories : list Memory;
  next_id : nat;
  clock : N
}.

Definition db_create_memory (memory_data : MemoryCreate) (db : Database)
  : Memory * Database :=
  let row :=
    {| m_id := next_id db;
       m_created_at := clock db;
       m_updated_at := clock db;
       m_user_id := mc_user_id memory_data;
       m_key := mc_key memory_data;
       m_value := mc_value memory_data;
       m_confidence := mc_confidence memory_data;
       m_weight := mc_weight memory_data;
       m_source := mc_source memory_data;
       m_needs_confirmation := mc_needs_confirmation memory_data;
       m_confirmed_at := None;
       m_expires_at := mc_expires_at memory_data |} in
  (row, {| memories := memories db ++ [row];
           next_id := S (next_id db);
           clock := clock db |}).

(** [.order('weight', desc=True)]: rows of equal weight keep their order. *)
Fixpoint insert_by_weight (m : Memory) (l : list Memory) : list Memory :=
  match l with
  | [] => [m]
  | x :: l' =>
      if Qlt_le_dec (m_weight m) (m_weight x)
      then x :: insert_by_weight m l'
      else m :: l
  end.

Definition db_get_user_memories (db : Database) (user_id : str) : list Memory :=
  fold_right insert_by_weight []
    (filter (fun m => str_eqb (m_user_id m) user_id = true) (memories db)).

(** The [updates] dict of [update_memory]: the columns that are set. *)
Record MemoryUpdates := {
  u_value : option pyval;
  u_confidence : option Q;
  u_weight : option Q;
  u_source : option str;
  u_needs_confirmation : option bool;
  u_confirmed_at : option N
}.

Definition apply_updates (now : N) (u : MemoryUpdates) (row : Memory) : Memory :=
  {| m_id := m_id row;
     m_created_at := m_created_at row;
     m_updated_at := now;
     m_user_id := m_user_id row;
     m_key := m_key row;
     m_value := default (m_value row) (u_value u);
     m_confidence := default (m_confidence row) (u_confidence u);
     m_weight := default (m_weight row) (u_weight u);
     m_source := default (m_source row) (u_source u);
     m_needs_confirmation := default (m_needs_confirmation row) (u_needs_confirmation u);
     m_confirmed_at :=
       match u_confirmed_at u with
       | Some t => Some t
       | None => m_confirmed_at row
       end;
     m_expires_at := m_expires_at row |}.

(** [update(updates).eq('id', memory_id)], then the first returned row as a
    [Memory].  The table is changed before the returned row is validated. *)
Definition db_update_memory (db : Database) (memory_id : nat) (updates : MemoryUpdates)
  : result Memory * Database :=
  let hit := fun row : Memory => (m_id row =? memory_id)%nat in
  let rows :=
    map (fun row => if hit row then apply_updates (clock db) updates row else row)
        (memories db) in
  let db' := {| memories := rows; next_id := next_id db; clock := clock db |} in
  match filter (fun row => hit row = true) rows with
  | [] => (Raise IndexError, db')
  | row :: _ => (validate_Memory row, db')
  end.

(** ** memory.py *)

Record CategoryConfig := {
  cfg_weight : Q;
  confidence_threshold : Q
}.

(** [self.memory_categories] *)
Definition memory_categories : list (str * CategoryConfig) :=
  [(py "personal_info", {| cfg_weight := 1.0; confidence_threshold := 0.8 |});
   (py "preferences", {| cfg_weight := 0.9; confidence_threshold := 0.7 |});
   (py "health_info", {| cfg_weight := 1.0; confidence_threshold := 0.9 |});
   (py "purchase_history", {| cfg_weight := 0.8; confidence_threshold := 0.8 |});
   (py "communication_style", {| cfg_weight := 0.6; confidence_threshold := 0.6 |});
   (py "context", {| cfg_weight := 0.5; confidence_threshold := 0.5 |})].

Definition category_config (category : str) : CategoryConfig :=
  table_get memory_categories category
            {| cfg_weight := 0.5; confidence_threshold := 0.5 |}.

(** [_store_memory]; any exception is caught and gives [None]. *)
Definition _store_memory (user_id key : str) (value : pyval) (confidence : Q)
    (source category : str) (needs_confirmation : bool) (db : Database)
  : option Memory * Database :=
  let config := category_config category in
  if Qlt_le_dec confidence (confidence_threshold config) then (None, db)
  else
    match new_MemoryCreate user_id key value confidence (cfg_weight config)
                           source needs_confirmation with
    | Raise _ => (None, db)
    | Ok memory_data =>
        let '(memory, db') := db_create_memory memory_data db in
        (Some memory, db')
    end.

Definition no_updates : MemoryUpdates :=
  {| u_value := None; u_confidence := None; u_weight := None;
     u_source := None; u_needs_confirmation := None; u_confirmed_at := None |}.

(** [next((m for m in memories if m.key == key), None)] *)
Definition find_key (key : str) (memories : list Memory) : option Memory :=
  List.find (fun m => str_eqb (m_key m) key) memories.

Definition update_memory (user_id key : str) (value : pyval) (confidence : Q)
    (source : str) (db : Database) : option Memory * Database :=
  let memories := db_get_user_memories db user_id in
  match find_key key memories with
  | Some existing_memory =>
      let new_confidence := ((m_confidence existing_memory + confidence) / 2)%Q in
      let new_weight := py_min (m_weight existing_memory + 0.1) 1.0 in
      let '(updated_memory, db') :=
        db_update_memory db (m_id existing_memory)
          {| u_value := Some value;
             u_confidence := Some new_confidence;
             u_weight := Some new_weight;
             u_source := Some source;
             u_needs_confirmation := None;
             u_confirmed_at := None |} in
      match updated_memory with
      | Ok m => (Some m, db')
      | Raise _ => (None, db')
      end
  | None =>
      _store_memory user_id key value confidence source (py "context") false db
  end.

Definition confirm_memory (user_id key : str) (db : Database)
  : option Memory * Database :=
  let memories := db_get_user_memories db user_id in
  match find_key key memories with
  | Some memory =>
      if m_needs_confirmation memory then
        let '(updated_memory, db') :=
          db_update_memory db (m_id memory)
            {| u_value := None;
               u_confidence := Some (py_min (m_confidence memory + 0.2) 1.0);
               u_weight := Some (py_min (m_weight memory + 0.2) 1.0);
               u_source := None;
               u_needs_confirmation := Some false;
               u_confirmed_at := Some (clock db) |} in
        match updated_memory with
        | Ok m => (Some m, db')
        | Raise _ => (None, db')
        end
      else (Some memory, db)
  | None => (None, db)
  end.

(** What an extractor records under a key: [{"value": ..., "confidence": ...}] *)
Record Candidate := {
  c_value : pyval;
  c_confidence : Q
}.

(** The dicts built by the extractors are iterated with [.items()], so they
    are kept in insertion order. *)
Definition Candidates := list (str * Candidate).

Fixpoint dict_set {A} (d : list (str * A)) (key : str) (v : A) : list (str * A) :=
  match d with
  | [] => [(key, v)]
  | (k, v') :: d' =>
      if str_eqb k key then (k, v) :: d' else (k, v') :: dict_set d' key v
  end.

Definition letters : regex := Grp (Rep (Cls letter_or_space) 1 None).

Definition name_patterns : list regex :=
  [seqs [lit (py "tên ");
         alts [lit (py "tôi là"); lit (py "của tôi là"); lit (py "mình là")];
         lit (py " "); letters];
   seqs [lit (py "mình là "); letters];
   seqs [lit (py "tôi là "); letters];
   seqs [lit (py "em tên "); letters]].

Fixpoint extract_name (patterns : list regex) (text : str) (personal_info : Candidates)
  : Candidates :=
  match patterns with
  | [] => personal_info
  | pattern :: rest =>
      match re_search true pattern text with
      | Some g =>
          let name := strip g in
          if (1 <? length name)%nat && (length name <? 50)%nat
          then dict_set personal_info (py "name")
                        {| c_value := VStr name; c_confidence := 0.9 |}
          else extract_name rest text personal_info
      | None => extract_name rest text personal_info
      end
  end.

(** Each pattern with whether it ends in the four-digit group of a birth
    year. *)
Definition age_patterns : list (regex * bool) :=
  [(seqs [alts [lit (py "tuổi"); lit (py "năm nay")]; lit (py " ");
          Grp (digits 1 (Some 2))], false);
   (seqs [Grp (digits 1 (Some 2)); lit (py " tuổi")], false);
   (seqs [lit (py "sinh năm "); Grp (digits 4 (Some 4))], true)].

Fixpoint extract_age (patterns : list (regex * bool)) (text : str) (current_year : Z)
    (personal_info : Candidates) : Candidates :=
  match patterns with
  | [] => personal_info
  | (pattern, birth_year) :: rest =>
      match re_search true pattern text with
      | Some age_value =>
          if birth_year then
            let age := (current_year - int_of_digits age_value)%Z in
            if (10 <=? age)%Z && (age <=? 100)%Z
            then dict_set personal_info (py "age")
                          {| c_value := VInt age; c_confidence := 0.8 |}
            else personal_info
          else
            let age := int_of_digits age_value in
            if (10 <=? age)%Z && (age <=? 100)%Z
            then dict_set personal_info (py "age")
                          {| c_value := VInt age; c_confidence := 0.9 |}
            else personal_info
      | None => extract_age rest text current_year personal_info
      end
  end.

Definition phone_patterns : list regex :=
  [seqs [alts [lit (py "số điện thoại"); lit (py "sdt"); lit (py "phone")];
         lit (py " "); opt (lit (py "là ")); Grp (digits 10 (Some 11))];
   Grp (digits 10 (Some 11))].

Definition phone_ok (m : str) : bool :=
  ((length m =? 10)%nat || (length m =? 11)%nat)
  && (starts_with (py "0") m || starts_with (py "84") m).

Definition extract_phone (text : str) (personal_info : Candidates) : Candidates :=
  fold_left
    (fun info pattern =>
       match List.find phone_ok (re_findall false pattern text) with
       | Some m => dict_set info (py "phone")
                            {| c_value := VStr m; c_confidence := 0.8 |}
       | None => info
       end)
    phone_patterns personal_info.

Definition _extract_personal_info (text : str) (current_year : Z) : Candidates :=
  let personal_info := extract_name name_patterns text [] in
  let personal_info := extract_age age_patterns text current_year personal_info in
  extract_phone text personal_info.

Definition product_keywords : list (str * list str) :=
  [(py "skincare", [py "kem dưỡng"; py "serum"; py "toner"; py "cleanser";
                    py "chăm sóc da"]);
   (py "makeup", [py "son"; py "phấn"; py "mascara"; py "foundation";
                  py "trang điểm"]);
   (py "haircare", [py "dầu gội"; py "dầu xả"; py "chăm sóc tóc"]);
   (py "fragrance", [py "nước hoa"; py "perfume"])].

Definition budget_patterns : list regex :=
  [seqs [lit (py "ngân sách "); Alt (lit (py "khoảng ")) Eps; Grp (digits 1 None)];
   seqs [Grp (digits 1 None); opt (lit (py "k"));
         alts [Seq (Rep (Cls isspace) 0 None) (lit (py "đồng"));
               Seq (Rep (Cls isspace) 0 None) (lit (py "vnđ"));
               Seq (Rep (Cls isspace) 0 None) (lit (py "vnd"))]];
   seqs [lit (py "dưới "); Grp (digits 1 None)]].

Fixpoint extract_budget (patterns : list regex) (text : str) (preferences : Candidates)
  : Candidates :=
  match patterns with
  | [] => preferences
  | pattern :: rest =>
      match re_search true pattern text with
      | Some g =>
          let budget := int_of_digits g in
          if (1000 <? budget)%Z
          then dict_set preferences (py "budget_range")
                        {| c_value := VInt budget; c_confidence := 0.8 |}
          else extract_budget rest text preferences
      | None => extract_budget rest text preferences
      end
  end.

Definition _extract_preferences (text : str) : Candidates :=
  let preferences :=
    fold_left
      (fun prefs '(category, keywords) =>
         fold_left
           (fun prefs keyword =>
              if contains keyword (lower text)
              then dict_set prefs (py "product_" ++ category)
                            {| c_value := VBool true; c_confidence := 0.7 |}
              else prefs)
           keywords prefs)
      product_keywords [] in
  extract_budget budget_patterns text preferences.

Definition pregnancy_keywords : list str :=
  [py "có thai"; py "mang thai"; py "bầu bí"; py "thai kỳ"; py "em bé"].

Definition allergy_patterns : list regex :=
  [seqs [lit (py "dị ứng "); opt (lit (py "với ")); letters];
   seqs [lit (py "bị dị ứng "); letters];
   seqs [lit (py "không dùng được "); letters]].

Definition skin_types : list (str * str) :=
  [(py "da khô", py "dry"); (py "da dầu", py "oily");
   (py "da hỗn hợp", py "combination"); (py "da nhạy cảm", py "sensitive");
   (py "da thường", py "normal")].

Definition _extract_health_info (text : str) : Candidates :=
  let health_info : Candidates := [] in
  let health_info :=
    if existsb (fun keyword => contains keyword (lower text)) pregnancy_keywords
    then dict_set health_info (py "pregnancy_status")
                  {| c_value := VBool true; c_confidence := 0.9 |}
    else health_info in
  let allergies :=
    fold_left
      (fun allergies pattern =>
         allergies ++ map strip (re_findall true pattern text))
      allergy_patterns [] in
  let health_info :=
    if negb (length allergies =? 0)%nat
    then dict_set health_info (py "allergies")
                  {| c_value := VList (map VStr allergies); c_confidence := 0.9 |}
    else health_info in
  match List.find (fun '(vietnamese, _) => contains vietnamese (lower text)) skin_types with
  | Some (_, english) =>
      dict_set health_info (py "skin_type")
               {| c_value := VStr english; c_confidence := 0.8 |}
  | None => health_info
  end.

(** One of the three storing loops of [extract_and_store_memories]. *)
Definition store_all (user_id source category : str) (needs_confirmation : bool)
    (items : Candidates) (st : list Memory * Database) : list Memory * Database :=
  fold_left
    (fun '(memories_extracted, db) '(key, value) =>
       let '(memory, db') :=
         _store_memory user_id (category ++ py "." ++ key) (c_value value)
                       (c_confidence value) source category needs_confirmation db in
       match memory with
       | Some m => (memories_extracted ++ [m], db')
       | None => (memories_extracted, db')
       end)
    items st.

(** [current_year] is [datetime.now().year]. *)
Definition extract_and_store_memories (user_id conversation_text source : str)
    (current_year : Z) (db : Database) : list Memory * Database :=
  let personal_info := _extract_personal_info conversation_text current_year in
  let preferences := _extract_preferences conversation_text in
  let health_info := _extract_health_info conversation_text in
  let st := store_all user_id source (py "personal_info") false personal_info ([], db) in
  let st := store_all user_id source (py "preferences") false preferences st in
  store_all user_id source (py "health_info") true health_info st.

(** ** orchestrator.py *)

Module AgentDecision.
Inductive t :=
  | DISCOVERY
  | CUSTOMER_SERVICE
  | SALES
  | HANDOFF_HUMAN
  | FOLLOWUP
  | GENERAL_CHAT.

Definition value (a : t) : str :=
  match a with
  | DISCOVERY => py "discovery"
  | CUSTOMER_SERVICE => py "customer_service"
  | SALES => py "sales"
  | HANDOFF_HUMAN => py "handoff_human"
  | FOLLOWUP => py "followup"
  | GENERAL_CHAT => py "general_chat"
  end.
End AgentDecision.

(** [ConversationState] of models/database.py.  The enum has these four
    members and no other: [ConversationState.DISCOVERY], which the router
    names, is not declared, so evaluating it raises [AttributeError]. *)
Module ConversationState.
Inductive t :=
  | ACTIVE
  | HANDOFF
  | COMPLETED
  | ARCHIVED.
End ConversationState.

Record Conversation := {
  conv_id : str;
  conv_user_id : str;
  conv_state : ConversationState.t
}.

Record Message := {
  msg_conversation_id : str;
  msg_content : str;
  msg_metadata : gmap str pyval
}.

(** The services the orchestrator calls.  Each call can raise.

    [memory_get_user_profile], [memory_get_context],
    [memory_process_interaction] and [db_get_recent_messages] are called by
    the orchestrator on objects whose classes, [MemoryEngine] and
    [DatabaseClient], define no such method: in the repository each of
    these calls raises [AttributeError].  They are fields here, shaped by
    their call sites, so that a statement holds for whatever they do or says
    what it assumes of them.
    [generate_analysis message context] is the text the model returns for
    the analysis prompt built from [message] and [context], and
    [process_with_agent] is the agent-specific prompt and generation of
    [_process_with_agent]. *)
Record Services := {
  generate_analysis : str -> option pyval -> result str;
  json_loads : str -> result pyval;
  db_get_conversation : str -> result (option Conversation);
  db_get_recent_messages : str -> Z -> result (list Message);
  memory_get_user_profile : str -> result pyval;
  memory_get_context : str -> str -> result pyval;
  rag_get_context_for_query : str -> result str;
  process_with_agent :
    AgentDecision.t -> str -> str -> str -> pyval -> str -> pyval ->
    result (gmap str pyval);
  memory_process_interaction :
    str -> str -> str -> str -> gmap str pyval -> result unit
}.

(** Truth value of a Python object *)
Definition truthy (v : pyval) : bool :=
  match v with
  | VNone => false
  | VBool b => b
  | VInt z => negb (z =? 0)%Z
  | VFloat q => negb (Qeq_bool q 0)
  | VStr s => nonempty s
  | VList l => match l with [] => false | _ => true end
  | VDict d => negb (bool_decide (d = ∅))
  end.

(** [v.get(key, dflt)]: only a dict has [get]. *)
Definition py_get (v : pyval) (key : str) (dflt : pyval) : result pyval :=
  match v with
  | VDict d => Ok (default dflt (d !! key))
  | _ => Raise AttributeError
  end.

(** [v == s] for a string literal [s] *)
Definition is_str (v : pyval) (s : str) : bool :=
  match v with
  | VStr s' => str_eqb s' s
  | _ => false
  end.

(** [v.lower()]: only a string has [lower]. *)
Definition py_lower (v : pyval) : result str :=
  match v with
  | VStr s => Ok (lower s)
  | _ => Raise AttributeError
  end.

(** [len(v)] *)
Definition py_len (v : pyval) : result nat :=
  match v with
  | VStr s => Ok (length s)
  | VList l => Ok (length l)
  | VDict d => Ok (size d)
  | _ => Raise TypeError
  end.

Definition as_str (v : pyval) : result str :=
  match v with
  | VStr s => Ok s
  | _ => Raise AttributeError
  end.

(** The analysis returned when the model or the parse fails. *)
Definition default_analysis : pyval :=
  VDict (<[py "type" := VStr (py "question")]>
        (<[py "intent" := VStr (py "general_inquiry")]>
        (<[py "sentiment" := VStr (py "neutral")]>
        (<[py "urgency" := VStr (py "low")]>
        (<[py "entities" := VList []]>
        (<[py "requires_human" := VBool false]> ∅)))))).

Definition _analyze_message (svc : Services) (message : str) (context : option pyval)
  : pyval :=
  match (text <- generate_analysis svc message context ;;
         json_loads svc (strip text)) with
  | Ok analysis => analysis
  | Raise _ => default_analysis
  end.

(** The last branch of the router: the agent of the most recent message. *)
Definition route_by_history (svc : Services) (conversation_id : str)
  : result AgentDecision.t :=
  recent_messages <- db_get_recent_messages svc conversation_id 5 ;;
  match recent_messages with
  | m :: _ =>
      let last_agent :=
        if negb (bool_decide (msg_metadata m = ∅))
        then default VNone (msg_metadata m !! py "agent")
        else VNone in
      if is_str last_agent (AgentDecision.value AgentDecision.DISCOVERY)
      then Ok AgentDecision.DISCOVERY
      else Ok AgentDecision.GENERAL_CHAT
  | [] => Ok AgentDecision.GENERAL_CHAT
  end.

(** The routing on [message_type] and [intent], after the handoff and the
    conversation-state rules. *)
Definition route_by_type (svc : Services) (analysis : pyval)
    (user_id conversation_id : str) : result AgentDecision.t :=
  message_type <- py_get analysis (py "type") (VStr (py "question")) ;;
  intent <- py_get analysis (py "intent") (VStr []) ;;
  if is_str message_type (py "greeting") then
    user_profile <- memory_get_user_profile svc user_id ;;
    if negb (truthy user_profile) then Ok AgentDecision.DISCOVERY
    else
      personal_info <- py_get user_profile (py "personal_info") (VDict ∅) ;;
      n <- py_len personal_info ;;
      if (n <? 3)%nat then Ok AgentDecision.DISCOVERY
      else Ok AgentDecision.GENERAL_CHAT
  else if is_str message_type (py "complaint") then
    Ok AgentDecision.CUSTOMER_SERVICE
  else if is_str message_type (py "purchase_intent") then
    Ok AgentDecision.SALES
  else
    intent_lower <- py_lower intent ;;
    if contains (py "mua") intent_lower || contains (py "giá") intent_lower
    then Ok AgentDecision.SALES
    else if is_str message_type (py "personal_info") then
      Ok AgentDecision.DISCOVERY
    else if is_str message_type (py "followup") then
      Ok AgentDecision.FOLLOWUP
    else route_by_history svc conversation_id.

Definition _route_to_agent (svc : Services) (analysis : pyval)
    (user_id conversation_id : str) : result AgentDecision.t :=
  requires_human <- py_get analysis (py "requires_human") (VBool false) ;;
  urgency <- py_get analysis (py "urgency") VNone ;;
  if truthy requires_human || is_str urgency (py "high") then
    Ok AgentDecision.HANDOFF_HUMAN
  else
    conversation <- db_get_conversation svc conversation_id ;;
    match conversation with
    | Some _ =>
        (* [conversation] is true, so the comparison of its state with
           [ConversationState.DISCOVERY] is evaluated; the enum has no such
           member. *)
        Raise AttributeError
    | None => route_by_type svc analysis user_id conversation_id
    end.

Definition fallback_response : str :=
  py "Xin lỗi, tôi đang gặp một chút vấn đề. Bạn có thể thử lại không?".

(** The four timing entries added to a response. *)
Definition timing_entries (timing_data : TypingData) : gmap str pyval :=
  <[py "typing_delay" := VFloat (total_delay timing_data)]>
  (<[py "message_complexity" := VStr (complexity timing_data)]>
  (<[py "typing_pattern" := VStr (pattern timing_data)]>
  (<[py "message_chunks" := VList (map VStr (chunks timing_data))]> ∅))).

(** The [try] block of [process_message]. *)
Definition process_message_try (svc : Services)
    (user_id conversation_id message : str) (context : option pyval)
  : result (gmap str pyval) :=
  let message_analysis := _analyze_message svc message context in
  agent_decision <- _route_to_agent svc message_analysis user_id conversation_id ;;
  memory_context <- memory_get_context svc user_id conversation_id ;;
  rag_context <-
    match agent_decision with
    | AgentDecision.CUSTOMER_SERVICE | AgentDecision.SALES =>
        rag_get_context_for_query svc message
    | _ => Ok []
    end ;;
  response_data <-
    process_with_agent svc agent_decision message user_id conversation_id
                       memory_context rag_context message_analysis ;;
  response <- as_str (default (VStr []) (response_data !! py "response")) ;;
  timing <- simulate_typing response (AgentDecision.value agent_decision) false ;;
  let timing_data := fst timing in
  message_type <- py_get message_analysis (py "type") VNone ;;
  intent <- py_get message_analysis (py "intent") VNone ;;
  sentiment <- py_get message_analysis (py "sentiment") VNone ;;
  _ <- memory_process_interaction svc user_id conversation_id message response
         (<[py "agent" := VStr (AgentDecision.value agent_decision)]>
         (<[py "message_type" := message_type]>
         (<[py "intent" := intent]>
         (<[py "sentiment" := sentiment]> ∅)))) ;;
  Ok (timing_entries timing_data ∪ response_data).

(** The [except] block of [process_message]. *)
Definition process_message_except : result (gmap str pyval) :=
  timing <- simulate_typing fallback_response (py "error_handler") false ;;
  let timing_data := fst timing in
  Ok (<[py "response" := VStr fallback_response]>
     (<[py "agent" := VStr (AgentDecision.value AgentDecision.GENERAL_CHAT)]>
     (<[py "error" := VBool true]>
     (timing_entries timing_data)))).

Definition process_message (svc : Services)
    (user_id conversation_id message : str) (context : option pyval)
  : result (gmap str pyval) :=
  match process_message_try svc user_id conversation_id message context with
  | Ok response_data => Ok response_data
  | Raise _ => process_message_except
  end.

(** ** memory.py: the context of a user *)

(** The entry of a fact in the context *)
Record FactView := {
  v_value : pyval;
  v_confidence : Q;
  v_weight : Q;
  v_needs_confirmation : bool;
  v_updated_at : N
}.

Definition view_of (memory : Memory) : FactView :=
  {| v_value := m_value memory;
     v_confidence := m_confidence memory;
     v_weight := m_weight memory;
     v_needs_confirmation := m_needs_confirmation memory;
     v_updated_at := m_updated_at memory |}.

(** [key.split(".", 1)] when it has two parts: the text before the first
    dot and the text after it. *)
Fixpoint split_dot (s : str) : option (str * str) :=
  match s with
  | [] => None
  | c :: s' =>
      if (c =? 46)%N then Some ([], s')
      else match split_dot s' with
           | Some (category, key) => Some (c :: category, key)
           | None => None
           end
  end.

Definition context_categories : list str :=
  [py "personal_info"; py "preferences"; py "health_info"; py "purchase_history";
   py "communication_style"; py "context"].

Definition empty_context : gmap str (gmap str FactView) :=
  list_to_map (map (fun category => (category, ∅)) context_categories).

(** One turn of the loop of [get_user_context]. *)
Definition context_step (context : gmap str (gmap str FactView)) (memory : Memory)
  : gmap str (gmap str FactView) :=
  match split_dot (m_key memory) with
  | Some (category, key) =>
      match context !! category with
      | Some facts => <[category := <[key := view_of memory]> facts]> context
      | None => context
      end
  | None => context
  end.

Definition get_user_context (db : Database) (user_id : str)
  : gmap str (gmap str FactView) :=
  fold_left context_step (db_get_user_memories db user_id) empty_context.

(** ** discovery.py *)

Definition discovery_questions : list (str * list str) :=
  [(py "personal_info",
    [py "Chào bạn! Mình có thể gọi bạn là gì ạ?";
     py "Bạn bao nhiêu tuổi rồi ạ?";
     py "Bạn đang sống ở đâu vậy?"]);
   (py "preferences",
    [py "Bạn thường quan tâm đến loại sản phẩm nào nhất?";
     py "Ngân sách mà bạn dành cho việc chăm sóc sắc đẹp thường là bao nhiêu?";
     py "Bạn có thương hiệu yêu thích nào không?";
     py "Bạn thích mua sắm online hay offline hơn?"]);
   (py "health_info",
    [py "Bạn có đang mang thai không ạ?";
     py "Da của bạn thuộc loại nào? (khô, dầu, hỗn hợp, nhạy cảm)";
     py "Bạn có bị dị ứng với thành phần nào không?";
     py "Bạn có vấn đề gì về da cần quan tâm đặc biệt không?"]);
   (py "lifestyle",
    [py "Bạn có thói quen chăm sóc da hàng ngày như thế nào?";
     py "Bạn thường làm việc trong môi trường nào? (văn phòng, ngoài trời...)";
     py "Bạn có tập thể thao thường xuyên không?"])].

(** [self.completeness_thresholds] *)
Definition threshold_basic : Q := 0.3%Q.
Definition threshold_good : Q := 0.6%Q.
Definition threshold_excellent : Q := 0.8%Q.

Definition category_weights : list (str * Q) :=
  [(py "personal_info", 0.3); (py "health_info", 0.25);
   (py "preferences", 0.25); (py "lifestyle", 0.2)]%Q.

(** [key in category_data] *)
Definition has (category_data : gmap str FactView) (key : str) : bool :=
  bool_decide (is_Some (category_data !! key)).

(** [[k for k in category_data.keys() if k.startswith("product_")]] *)
Definition product_prefs (category_data : gmap str FactView) : list str :=
  filter (fun k => starts_with (py "product_") k = true)
         (map fst (map_to_list category_data)).

(** [context.get(category, {})] *)
Definition category_of (context : gmap str (gmap str FactView)) (category : str)
  : gmap str FactView :=
  default ∅ (context !! category).

(** One turn of the loop of [_calculate_completeness] on
    [(total_weight, filled_weight)]. *)
Definition completeness_step (context : gmap str (gmap str FactView))
    (st : Q * Q) (cw : str * Q) : Q * Q :=
  let '(total_weight, filled_weight) := st in
  let '(category, weight) := cw in
  let total_weight := (total_weight + weight)%Q in
  let category_data := category_of context category in
  if str_eqb category (py "personal_info") then
    let filled_weight :=
      if has category_data (py "name") || has category_data (py "age")
      then (filled_weight + weight * 0.5)%Q else filled_weight in
    let filled_weight :=
      if has category_data (py "name") && has category_data (py "age")
      then (filled_weight + weight * 0.5)%Q else filled_weight in
    (total_weight, filled_weight)
  else if str_eqb category (py "health_info") then
    let filled_weight :=
      if has category_data (py "skin_type") || has category_data (py "pregnancy_status")
      then (filled_weight + weight * 0.7)%Q else filled_weight in
    let filled_weight :=
      if has category_data (py "allergies")
      then (filled_weight + weight * 0.3)%Q else filled_weight in
    (total_weight, filled_weight)
  else if str_eqb category (py "preferences") then
    let filled_weight :=
      match product_prefs category_data with
      | [] => filled_weight
      | _ => (filled_weight + weight * 0.6)%Q
      end in
    let filled_weight :=
      if has category_data (py "budget_range")
      then (filled_weight + weight * 0.4)%Q else filled_weight in
    (total_weight, filled_weight)
  else if str_eqb category (py "lifestyle") then
    let filled_weight :=
      if negb (bool_decide (category_data = ∅))
      then (filled_weight + weight * py_min (of_nat (size category_data) * 0.3) 1.0)%Q
      else filled_weight in
    (total_weight, filled_weight)
  else (total_weight, filled_weight).

Definition _calculate_completeness (context : gmap str (gmap str FactView)) : Q :=
  let '(total_weight, filled_weight) :=
    fold_left (completeness_step context) category_weights (0, 0)%Q in
  if Qlt_le_dec 0 total_weight
  then py_min (filled_weight / total_weight) 1.0
  else 0.0%Q.

(** [_identify_missing_info]; a fact view is a non-empty dict, so
    [d.get(key)] is true exactly when the key is there. *)
Definition _identify_missing_info (context : gmap str (gmap str FactView))
  : list str :=
  let missing := [] in
  let personal_info := category_of context (py "personal_info") in
  let missing :=
    if negb (has personal_info (py "name")) && negb (has personal_info (py "age"))
    then missing ++ [py "personal_info"] else missing in
  let health_info := category_of context (py "health_info") in
  let missing :=
    if negb (has health_info (py "skin_type"))
       && negb (has health_info (py "pregnancy_status"))
    then missing ++ [py "health_info"] else missing in
  let preferences := category_of context (py "preferences") in
  let missing :=
    match product_prefs preferences with
    | [] => missing ++ [py "preferences"]
    | _ => missing
    end in
  let lifestyle := category_of context (py "lifestyle") in
  if bool_decide (lifestyle = ∅) then missing ++ [py "lifestyle"] else missing.

(** [x in l] for a list of strings *)
Definition str_in (x : str) (l : list str) : bool := existsb (str_eqb x) l.

Definition first_question (category : str) : option str :=
  match table_get discovery_questions category [] with
  | [] => None
  | q :: _ => Some q
  end.

Definition _suggest_next_questions (context : gmap str (gmap str FactView))
  : list str :=
  let missing_info := _identify_missing_info context in
  fold_left
    (fun suggestions category =>
       match first_question category with
       | Some q => suggestions ++ [q]
       | None => suggestions
       end)
    (take 2 missing_info) [].

Definition priority_order : list str :=
  [py "personal_info"; py "health_info"; py "preferences"; py "lifestyle"].

Definition get_discovery_question (db : Database) (user_id : str)
    (category : option str) : option str :=
  let context := get_user_context db user_id in
  let missing_info := _identify_missing_info context in
  match missing_info with
  | [] => None
  | _ =>
      let target_category :=
        match category with
        | Some c =>
            if nonempty c && str_in c missing_info then Some c
            else List.find (fun cat => str_in cat missing_info) priority_order
        | None => List.find (fun cat => str_in cat missing_info) priority_order
        end in
      match target_category with
      | None => None
      | Some target => first_question target
      end
  end.

Definition should_continue_discovery (db : Database) (user_id : str) : bool :=
  let context := get_user_context db user_id in
  let completeness := _calculate_completeness context in
  if Qlt_le_dec completeness threshold_good then true else false.

(** [_determine_next_action] on the [completeness_score] of the analysis *)
Definition _determine_next_action (completeness : Q) : str :=
  if Qlt_le_dec completeness threshold_basic then py "continue_discovery"
  else if Qlt_le_dec completeness threshold_good then py "targeted_questions"
  else if Qlt_le_dec completeness threshold_excellent then py "optional_discovery"
  else py "ready_for_consultation".

(** ** api/streaming.py: the typing simulation *)

Inductive SimEvent :=
  | sim_typing_start (total_delay : Q) (complexity pattern : str) (chunk_count : nat)
  | sim_sleep (delay : Q)
  | sim_typing_progress (chunk : str) (chunk_index total_chunks : nat)
                        (delay_used : Q) (is_final : bool)
  | sim_typing_complete (total_time : Q) (message : str)
  | sim_error (error : str).

(** An [HTTPException] with its status code *)
Inductive HTTPException := http_error (status_code : nat).

Fixpoint progress_events (i total : nat) (cds : list (str * Q)) : list SimEvent :=
  match cds with
  | [] => []
  | (chunk, delay) :: rest =>
      [sim_sleep delay;
       sim_typing_progress chunk i total delay (i =? total - 1)%nat]
      ++ progress_events (S i) total rest
  end.

(** The events of [generate_typing_stream]; an exception after the start
    event is answered with the error event. *)
Definition generate_typing_stream (timing_data : TypingData) (message : str)
  : list SimEvent :=
  let chunks := chunks timing_data in
  let total_delay := total_delay timing_data in
  sim_typing_start total_delay (complexity timing_data) (pattern timing_data)
                   (length chunks)
  :: match _distribute_delay chunks total_delay with
     | Ok chunk_delays =>
         progress_events 0 (length chunks) (combine chunks chunk_delays)
         ++ [sim_typing_complete total_delay message]
     | Raise _ => [sim_error (py "Typing simulation failed")]
     end.

(** The body of the [try] block of [simulate_typing_only].  A message that
    is not a string has no [split]; an agent type that is a list or a dict
    cannot be looked up in the table of patterns, and any other value that
    is not a string is no key of it. *)
Definition simulate_typing_only_try (request : gmap str pyval)
  : result (HTTPException + list SimEvent) :=
  let message := default (VStr []) (request !! py "message") in
  let agent_type := default (VStr (py "general_chat")) (request !! py "agent_type") in
  if negb (truthy message) then Ok (inl (http_error 400))
  else
    message <- as_str message ;;
    agent_type <-
      match agent_type with
      | VStr s => Ok s
      | VList _ | VDict _ => Raise TypeError
      | _ => Ok []
      end ;;
    timing <- simulate_typing message agent_type false ;;
    Ok (inr (generate_typing_stream (fst timing) message)).

(** [simulate_typing_only]: whatever the [try] block raises, the 400 of a
    missing message included, is caught and raised again as a 500. *)
Definition simulate_typing_only (request : gmap str pyval)
  : HTTPException + list SimEvent :=
  match simulate_typing_only_try request with
  | Ok (inr stream) => inr stream
  | Ok (inl _) | Raise _ => inl (http_error 500)
  end.

(** ** Vocabulary of the statements *)

(** The number of personal_info facts of a profile: an absent profile or an
    absent personal_info entry has none. *)
Definition personal_info_facts (user_profile : pyval) : option nat :=
  match user_profile with
  | VNone => Some 0
  | VDict profile =>
      match profile !! py "personal_info" with
      | None => Some 0
      | Some (VDict facts) => Some (size facts)
      | Some _ => None
      end
  | _ => None
  end.

(** The handoff rule does not fire on the analysis [d]. *)
Definition no_handoff (d : gmap str pyval) : Prop :=
  truthy (default (VBool false) (d !! py "requires_human")) = false
  /\ is_str (default VNone (d !! py "urgency")) (py "high") = false.

(** Services for the examples: the store reports [conversation] and
    [user_profile]; the model is unreachable, and the memory engine lacks
    [get_context] and [process_interaction] as in the repository. *)
Definition example_services (conversation : option Conversation)
    (user_profile : pyval) : Services :=
  {| generate_analysis := fun _ _ => Raise (ExternalError (py "model unreachable"));
     json_loads := fun _ => Raise (ExternalError (py "not JSON"));
     db_get_conversation := fun _ => Ok conversation;
     db_get_recent_messages := fun _ _ => Ok [];
     memory_get_user_profile := fun _ => Ok user_profile;
     memory_get_context := fun _ _ => Raise AttributeError;
     rag_get_context_for_query := fun _ => Ok [];
     process_with_agent := fun _ _ _ _ _ _ _ => Raise (ExternalError (py "model unreachable"));
     memory_process_interaction := fun _ _ _ _ _ => Raise AttributeError |}.

(** The services as the repository has them: the store reports
    [conversation], the model is unreachable, and the four methods that
    [MemoryEngine] and [DatabaseClient] do not define raise
    [AttributeError]. *)
Definition repository_services (conversation : option Conversation) : Services :=
  {| generate_analysis := fun _ _ => Raise (ExternalError (py "model unreachable"));
     json_loads := fun _ => Raise (ExternalError (py "not JSON"));
     db_get_conversation := fun _ => Ok conversation;
     db_get_recent_messages := fun _ _ => Raise AttributeError;
     memory_get_user_profile := fun _ => Raise AttributeError;
     memory_get_context := fun _ _ => Raise AttributeError;
     rag_get_context_for_query := fun _ => Ok [];
     process_with_agent := fun _ _ _ _ _ _ _ => Raise (ExternalError (py "model unreachable"));
     memory_process_interaction := fun _ _ _ _ _ => Raise AttributeError |}.

Definition active_conversation : Conversation :=
  {| conv_id := py "c1"; conv_user_id := py "u1";
     conv_state := ConversationState.ACTIVE |}.

Definition empty_db : Database := {| memories := []; next_id := 0; clock := 0 |}.

Definition scenario_text : str := py "Tôi có thai và bị dị ứng với nước hoa".

(** The columns of a stored fact that the statements look at. *)
Definition fact_view (m : Memory) : str * pyval * Q * Q * bool :=
  (m_key m, m_value m, m_confidence m, m_weight m, m_needs_confirmation m).

(** The total length of the chunks and the proportional share of one. *)
Definition total_length (chunks : list str) : nat :=
  list_sum (map (@length N) chunks).

Definition share (chunks : list str) (total_delay : Q) (chunk : str) : Q :=
  (total_delay * (of_nat (length chunk) / of_nat (total_length chunks)))%Q.


(** What is added to the typing time of a message. *)
Definition content_time (message : str) (complexity : MessageComplexity) : Q :=
  (_calculate_thinking_time message complexity + _calculate_pause_time message)%Q.

(** The delay does not decrease from [m1] to [m2] when the word count does
    not. *)
Definition delay_monotone_in_words (m1 m2 : str)
    (complexity : MessageComplexity) (pattern : TypingPattern) : Prop :=
  (word_count m1 <= word_count m2)%nat ->
  (calculate_typing_delay m1 complexity pattern
   <= calculate_typing_delay m2 complexity pattern)%Q.

(** A string with its whitespace taken out. *)
Definition nospace (s : str) : str := filter (fun c => isspace c = false) s.




(** The chunks that the callback receives, the sleeps before them, and the
    chunks flagged as final. *)
Definition delivered (events : list TypingEvent) : list str :=
  flat_map (fun e => match e with chunk_ready chunk _ _ _ => [chunk] | _ => [] end)
           events.

Definition sleeps (events : list TypingEvent) : list Q :=
  flat_map (fun e => match e with sleep delay => [delay] | _ => [] end) events.

Definition finals (events : list TypingEvent) : list str :=
  flat_map (fun e => match e with chunk_ready chunk _ _ true => [chunk] | _ => [] end)
           events.

(** Every row of the store has its confidence and weight in [0,1]. *)
Definition valid_store (db : Database) : Prop :=
  Forall (fun m => in_unit (m_confidence m) = true /\ in_unit (m_weight m) = true)
         (memories db).




(** A context that holds the facts of [rows] and no other: under a category
    and a key stands the view of a row of that key, and no entry is missing
    for a row whose category the context has. *)
Definition context_of (rows : list Memory) (context : gmap str (gmap str FactView))
  : Prop :=
  forall category facts key,
    context !! category = Some facts ->
    match facts !! key with
    | Some v =>
        exists m, In m rows /\ split_dot (m_key m) = Some (category, key)
                  /\ v = view_of m
    | None =>
        forall m, In m rows -> split_dot (m_key m) <> Some (category, key)
    end.

(** A store with one fact of the user "u1", her name. *)
Definition name_db : Database :=
  snd (_store_memory (py "u1") (py "personal_info.name") (VStr (py "Lan")) 0.9
                     (py "chat") (py "personal_info") false empty_db).

(** * Properties *)

(** ** Routing *)

Section Routing.
Context (svc : Services).

(** C1.  When [requires_human] is true (any true value) or [urgency] is
    "high", the router answers HANDOFF_HUMAN.  No service is consulted: the
    statement holds for every [svc], whatever the state of the conversation
    it would report. *)
Theorem route_handoff_first (d : gmap str pyval) (user_id conversation_id : str) :
  truthy (default (VBool false) (d !! py "requires_human")) = true
  \/ d !! py "urgency" = Some (VStr (py "high")) ->
  _route_to_agent svc (VDict d) user_id conversation_id
  = Ok AgentDecision.HANDOFF_HUMAN.
Proof.
  intros H. unfold _route_to_agent, py_get, bind.
  destruct H as [H | H].
  - rewrite H. reflexivity.
  - rewrite H. cbn [default from_option id].
    replace (is_str (VStr (py "high")) (py "high")) with true by reflexivity.
    rewrite orb_true_r. reflexivity.
Qed.

Lemma truthy_dict_size (d : gmap str pyval) :
  truthy (VDict d) = negb (size d =? 0)%nat.
Proof.
  unfold truthy. destruct (decide (d = ∅)) as [-> | Hne].
  - rewrite bool_decide_eq_true_2 by reflexivity. reflexivity.
  - rewrite bool_decide_eq_false_2 by assumption.
    destruct (size d) eqn:E; [|reflexivity].
    apply map_size_empty_iff in E. contradiction.
Qed.

(** What the greeting rule computes from a profile, where the memory engine
    has one to give: DISCOVERY for fewer than three personal_info facts,
    GENERAL_CHAT otherwise. *)
Lemma route_by_type_greeting (d : gmap str pyval) (user_id conversation_id : str)
    (user_profile : pyval) (n : nat) :
  d !! py "type" = Some (VStr (py "greeting")) ->
  memory_get_user_profile svc user_id = Ok user_profile ->
  personal_info_facts user_profile = Some n ->
  route_by_type svc (VDict d) user_id conversation_id
  = Ok (if (n <? 3)%nat then AgentDecision.DISCOVERY else AgentDecision.GENERAL_CHAT).
Proof.
  intros Htype Hprof Hfacts.
  unfold route_by_type, py_get, bind. rewrite Htype. cbn [default from_option id].
  replace (is_str (VStr (py "greeting")) (py "greeting")) with true by reflexivity.
  rewrite Hprof.
  destruct user_profile as [ | | | | | |profile]; try discriminate.
  - injection Hfacts as <-. reflexivity.
  - unfold personal_info_facts in Hfacts.
    rewrite truthy_dict_size.
    destruct (profile !! py "personal_info") as [pi|] eqn:Epi.
    + destruct pi as [ | | | | | |facts]; try discriminate.
      injection Hfacts as <-.
      assert (size profile <> 0).
      { intros E. apply map_size_empty_iff in E. subst profile.
        rewrite lookup_empty in Epi. discriminate. }
      destruct (size profile =? 0)%nat eqn:E0;
        [apply Nat.eqb_eq in E0; contradiction|].
      cbn [negb default from_option id py_len].
      destruct (size facts <? 3)%nat; reflexivity.
    + injection Hfacts as <-.
      destruct (size profile =? 0)%nat; cbn [negb default from_option id py_len];
        [reflexivity|].
      rewrite map_size_empty. reflexivity.
Qed.

(** C2.  A greeting without a handoff signal is routed to no agent: the
    router raises [AttributeError].  For a conversation that exists it
    does so on [ConversationState.DISCOVERY], which the enum does not
    declare; without one it reaches the greeting rule and raises there on
    [get_user_profile], which [MemoryEngine] does not define. *)
Theorem route_greeting (d : gmap str pyval) (user_id conversation_id : str)
    (conversation : option Conversation) :
  no_handoff d ->
  d !! py "type" = Some (VStr (py "greeting")) ->
  db_get_conversation svc conversation_id = Ok conversation ->
  memory_get_user_profile svc user_id = Raise AttributeError ->
  _route_to_agent svc (VDict d) user_id conversation_id = Raise AttributeError.
Proof.
  intros [Hrh Hurg] Htype Hconv Hprof.
  unfold _route_to_agent, py_get, bind.
  rewrite Hrh, Hurg, Hconv. cbn [orb].
  destruct conversation as [c|]; [reflexivity|].
  unfold route_by_type, py_get, bind. rewrite Htype. cbn [default from_option id].
  replace (is_str (VStr (py "greeting")) (py "greeting")) with true by reflexivity.
  rewrite Hprof. reflexivity.
Qed.

End Routing.

Lemma route_handoff_first_witness :
  (truthy (default (VBool false)
             (({[py "requires_human" := VBool true]} : gmap str pyval)
                !! py "requires_human")) = true
   \/ ({[py "requires_human" := VBool true]} : gmap str pyval) !! py "urgency"
      = Some (VStr (py "high")))
  /\ _route_to_agent (example_services (Some active_conversation) VNone)
       (VDict {[py "requires_human" := VBool true]}) (py "u1") (py "c1")
     = Ok AgentDecision.HANDOFF_HUMAN.
Proof.
  split.
  - left. vm_compute. reflexivity.
  - apply (route_handoff_first (example_services (Some active_conversation) VNone)
             {[py "requires_human" := VBool true]} (py "u1") (py "c1")).
    left. vm_compute. reflexivity.
Defined.

Lemma route_greeting_witness :
  _route_to_agent (repository_services None)
    (VDict {[py "type" := VStr (py "greeting")]}) (py "u1") (py "c1")
  = Raise AttributeError
  /\ _route_to_agent (repository_services (Some active_conversation))
       (VDict {[py "type" := VStr (py "greeting")]}) (py "u1") (py "c1")
     = Raise AttributeError.
Proof.
  split.
  - apply (route_greeting (repository_services None)
             {[py "type" := VStr (py "greeting")]} (py "u1") (py "c1") None).
    + split; vm_compute; reflexivity.
    + vm_compute. reflexivity.
    + reflexivity.
    + reflexivity.
  - apply (route_greeting (repository_services (Some active_conversation))
             {[py "type" := VStr (py "greeting")]} (py "u1") (py "c1")
             (Some active_conversation)).
    + split; vm_compute; reflexivity.
    + vm_compute. reflexivity.
    + reflexivity.
    + reflexivity.
Defined.

(** ** The failure path of [process_message] *)

(** Every entry of the reply built by the [except] block. *)
Lemma process_message_except_value :
  exists reply q,
    process_message_except = Ok reply
    /\ reply !! py "response" = Some (VStr fallback_response)
    /\ reply !! py "agent" = Some (VStr (py "general_chat"))
    /\ reply !! py "error" = Some (VBool true)
    /\ reply !! py "typing_delay" = Some (VFloat q) /\ (q == 8.0)%Q
    /\ reply !! py "message_complexity" = Some (VStr (py "medium"))
    /\ reply !! py "typing_pattern" = Some (VStr (py "normal"))
    /\ reply !! py "message_chunks" = Some (VList [VStr fallback_response]).
Proof.
  unfold process_message_except.
  destruct (simulate_typing fallback_response (py "error_handler") false)
    as [[timing_data events]|e] eqn:E; vm_compute in E; [|discriminate].
  injection E as <- <-. eexists. eexists.
  split; [reflexivity|].
  repeat split; vm_compute; reflexivity.
Qed.

(** C9.  When the [try] block raises, [process_message] returns the apology
    with [error] set and the timing entries that [simulate_typing] computes
    for it: a delay of 8.0 seconds, complexity "medium", pattern "normal" and
    the apology as the only chunk. *)
Theorem process_message_failure (svc : Services)
    (user_id conversation_id message : str) (context : option pyval) (e : exn) :
  process_message_try svc user_id conversation_id message context = Raise e ->
  exists reply timing_data q,
    process_message svc user_id conversation_id message context = Ok reply
    /\ simulate_typing fallback_response (py "error_handler") false
       = Ok (timing_data, [])
    /\ reply !! py "response" = Some (VStr fallback_response)
    /\ reply !! py "error" = Some (VBool true)
    /\ reply !! py "typing_delay" = Some (VFloat (total_delay timing_data))
    /\ reply !! py "message_complexity" = Some (VStr (complexity timing_data))
    /\ reply !! py "typing_pattern" = Some (VStr (pattern timing_data))
    /\ reply !! py "message_chunks" = Some (VList (map VStr (chunks timing_data)))
    /\ total_delay timing_data = q /\ (q == 8.0)%Q
    /\ complexity timing_data = py "medium"
    /\ pattern timing_data = py "normal"
    /\ chunks timing_data = [fallback_response].
Proof.
  intros H. unfold process_message. rewrite H.
  unfold process_message_except.
  destruct (simulate_typing fallback_response (py "error_handler") false)
    as [[timing_data events]|e'] eqn:E; vm_compute in E; [|discriminate].
  injection E as <- <-. eexists. eexists. eexists.
  split; [reflexivity|].
  repeat split; vm_compute; reflexivity.
Qed.

Lemma process_message_failure_witness :
  exists reply,
    process_message (example_services None VNone) (py "u1") (py "c1")
                    (py "Xin chào") None = Ok reply
    /\ reply !! py "error" = Some (VBool true).
Proof.
  destruct (process_message_failure (example_services None VNone) (py "u1") (py "c1")
              (py "Xin chào") None AttributeError)
    as (reply & _ & _ & Hreply & _ & _ & Herror & _).
  - vm_compute. reflexivity.
  - exists reply. split; assumption.
Defined.

(** Whether the [try] block succeeds or not, the reply carries the four
    timing entries. *)
Lemma process_message_always_paced (svc : Services)
    (user_id conversation_id message : str) (context : option pyval) :
  exists reply,
    process_message svc user_id conversation_id message context = Ok reply
    /\ is_Some (reply !! py "typing_delay")
    /\ is_Some (reply !! py "message_complexity")
    /\ is_Some (reply !! py "typing_pattern")
    /\ is_Some (reply !! py "message_chunks").
Proof.
  unfold process_message.
  destruct (process_message_try svc user_id conversation_id message context)
    as [reply|e] eqn:E.
  - exists reply. split; [reflexivity|].
    unfold process_message_try, bind in E.
    repeat match type of E with
           | match ?x with _ => _ end = _ => destruct x eqn:?; try discriminate
           end.
    injection E as <-.
    repeat split; apply lookup_union_is_Some; left; unfold timing_entries;
      eexists; vm_compute; reflexivity.
  - destruct process_message_except_value
      as (reply & q & -> & _ & _ & _ & Hd & _ & Hc & Hp & Hk).
    exists reply. split; [reflexivity|]. repeat split; eexists; eassumption.
Qed.

(** ** The memory engine *)

(** [lra] with the divisions by the constants of the source written as
    products. *)
Ltac qlra :=
  unfold Qdiv in *;
  change (/ 2)%Q with (1 # 2)%Q in *;
  change (/ 10)%Q with (1 # 10)%Q in *;
  lra.

Lemma in_unit_true (q : Q) : (0 <= q)%Q -> (q <= 1)%Q -> in_unit q = true.
Proof.
  intros H0 H1. unfold in_unit.
  apply andb_true_intro. split; apply Qle_bool_iff; assumption.
Qed.

Lemma in_unit_elim (q : Q) : in_unit q = true -> (0 <= q <= 1)%Q.
Proof.
  unfold in_unit. intros H. apply andb_prop in H as [H0 H1].
  split; apply Qle_bool_iff; assumption.
Qed.

Lemma category_config_bounds (category : str) :
  (1 # 2 <= confidence_threshold (category_config category))%Q
  /\ (0 <= cfg_weight (category_config category) <= 1)%Q.
Proof.
  unfold category_config, memory_categories. cbn [table_get].
  repeat match goal with
         | |- context [if str_eqb ?a ?b then _ else _] => destruct (str_eqb a b)
         end;
    cbn [confidence_threshold cfg_weight]; lra.
Qed.

Lemma py_min_Qmin (a b : Q) : (py_min a b == Qmin a b)%Q.
Proof.
  unfold py_min. destruct (Qlt_le_dec b a) as [H | H].
  - symmetry. apply Q.min_r. lra.
  - symmetry. apply Q.min_l. assumption.
Qed.

Lemma store_memory_rejects (user_id key : str) (value : pyval) (confidence : Q)
    (source category : str) (needs_confirmation : bool) (db : Database) :
  (confidence < confidence_threshold (category_config category))%Q ->
  _store_memory user_id key value confidence source category needs_confirmation db
  = (None, db).
Proof.
  intros Hlow. unfold _store_memory.
  destruct (Qlt_le_dec confidence (confidence_threshold (category_config category)))
    as [_ | Hge]; [reflexivity | lra].
Qed.

Lemma store_memory_accepts (user_id key : str) (value : pyval) (confidence : Q)
    (source category : str) (needs_confirmation : bool) (db : Database) :
  (confidence_threshold (category_config category) <= confidence)%Q ->
  (confidence <= 1)%Q ->
  exists memory,
    _store_memory user_id key value confidence source category
                  needs_confirmation db
    = (Some memory,
       {| memories := memories db ++ [memory];
          next_id := S (next_id db); clock := clock db |})
    /\ m_weight memory = cfg_weight (category_config category)
    /\ m_confidence memory = confidence
    /\ m_user_id memory = user_id /\ m_key memory = key
    /\ m_needs_confirmation memory = needs_confirmation.
Proof.
  intros Hge Hle. unfold _store_memory.
  destruct (Qlt_le_dec confidence (confidence_threshold (category_config category)))
    as [Hlt | _]; [lra|].
  destruct (category_config_bounds category) as [Hthr [Hw0 Hw1]].
  unfold new_MemoryCreate.
  rewrite (in_unit_true confidence) by lra.
  rewrite (in_unit_true (cfg_weight (category_config category))) by assumption.
  cbn [andb]. unfold db_create_memory. eexists. split; [reflexivity|].
  repeat split.
Qed.

(** A confidence above 1 passes every threshold and is then refused by the
    validation of [MemoryCreate]. *)
Lemma store_memory_rejects_invalid (user_id key : str) (value : pyval)
    (confidence : Q) (source category : str) (needs_confirmation : bool)
    (db : Database) :
  (1 < confidence)%Q ->
  _store_memory user_id key value confidence source category needs_confirmation db
  = (None, db).
Proof.
  intros Hhigh. unfold _store_memory.
  destruct (Qlt_le_dec confidence (confidence_threshold (category_config category)));
    [reflexivity|].
  unfold new_MemoryCreate.
  assert (E : in_unit confidence = false).
  { destruct (in_unit confidence) eqn:E; [|reflexivity].
    apply in_unit_elim in E. lra. }
  rewrite E. reflexivity.
Qed.

(** C7.  Below the threshold of its category a candidate is rejected and
    the store is left as it was; at or above it (confidence being at most 1,
    as the model of a fact requires) the candidate is appended to the store
    with the base weight of the category.  The thresholds and weights are
    those of the six categories, and of "context" for any other name. *)
Theorem store_memory_threshold (user_id key : str) (value : pyval) (confidence : Q)
    (source category : str) (needs_confirmation : bool) (db : Database) :
  ((confidence < confidence_threshold (category_config category))%Q ->
   _store_memory user_id key value confidence source category needs_confirmation db
   = (None, db))
  /\ ((confidence_threshold (category_config category) <= confidence)%Q ->
      (confidence <= 1)%Q ->
      exists memory,
        _store_memory user_id key value confidence source category
                      needs_confirmation db
        = (Some memory,
           {| memories := memories db ++ [memory];
              next_id := S (next_id db); clock := clock db |})
        /\ m_weight memory = cfg_weight (category_config category)
        /\ m_confidence memory = confidence
        /\ m_user_id memory = user_id /\ m_key memory = key
        /\ m_needs_confirmation memory = needs_confirmation)
  /\ map (fun c => (confidence_threshold (category_config c),
                    cfg_weight (category_config c)))
         [py "health_info"; py "personal_info"; py "purchase_history";
          py "preferences"; py "communication_style"; py "context"]
     = [(0.9, 1.0); (0.8, 1.0); (0.8, 0.8); (0.7, 0.9); (0.6, 0.6); (0.5, 0.5)]%Q.
Proof.
  split; [|split].
  - apply store_memory_rejects.
  - apply store_memory_accepts.
  - vm_compute. reflexivity.
Qed.

Lemma store_memory_threshold_witness :
  _store_memory (py "u1") (py "health_info.skin_type") (VStr (py "dry")) 0.8
                (py "conversation") (py "health_info") true empty_db
  = (None, empty_db)
  /\ exists memory db',
       _store_memory (py "u1") (py "health_info.pregnancy_status") (VBool true) 0.9
                     (py "conversation") (py "health_info") true empty_db
       = (Some memory, db')
       /\ (m_weight memory == 1)%Q.
Proof.
  split.
  - apply (store_memory_threshold (py "u1") (py "health_info.skin_type")
             (VStr (py "dry")) 0.8 (py "conversation") (py "health_info") true empty_db).
    vm_compute. reflexivity.
  - destruct (store_memory_threshold (py "u1") (py "health_info.pregnancy_status")
                (VBool true) 0.9 (py "conversation") (py "health_info") true empty_db)
      as (_ & Hstored & _).
    destruct Hstored as (memory & Heq & Hw & _).
    + vm_compute. discriminate.
    + vm_compute. discriminate.
    + exists memory. eexists. split; [exact Heq|]. rewrite Hw. vm_compute. reflexivity.
Defined.

Lemma insert_by_weight_In (m x : Memory) (l : list Memory) :
  In x (insert_by_weight m l) -> x = m \/ In x l.
Proof.
  induction l as [|y l IH]; cbn [insert_by_weight].
  - intros [<- | []]. left. reflexivity.
  - destruct (Qlt_le_dec (m_weight m) (m_weight y)).
    + intros [<- | H]; [right; left; reflexivity|].
      destruct (IH H) as [-> | H']; [left; reflexivity | right; right; exact H'].
    + intros [<- | H]; [left; reflexivity | right; exact H].
Qed.

Lemma sort_by_weight_In (x : Memory) (l : list Memory) :
  In x (fold_right insert_by_weight [] l) -> In x l.
Proof.
  induction l as [|y l IH]; cbn [fold_right]; [intros []|].
  intros H. apply insert_by_weight_In in H as [-> | H].
  - left. reflexivity.
  - right. apply IH, H.
Qed.

(** A fact found for a user is a row of the table, belongs to the user and
    has the key asked for. *)
Lemma find_key_row (db : Database) (user_id key : str) (existing : Memory) :
  find_key key (db_get_user_memories db user_id) = Some existing ->
  In existing (memories db) /\ m_user_id existing = user_id /\ m_key existing = key.
Proof.
  unfold find_key, db_get_user_memories. intros H.
  apply find_some in H as [Hin Hkey].
  apply sort_by_weight_In in Hin.
  apply list_elem_of_In, list_elem_of_filter in Hin as [Huser Hin].
  apply list_elem_of_In in Hin.
  unfold str_eqb in *. apply bool_decide_eq_true_1 in Hkey, Huser.
  auto.
Qed.

(** The row that [db_update_memory] returns is an updated row of the table. *)
Lemma db_update_memory_row (db : Database) (memory_id : nat) (updates : MemoryUpdates)
    (existing : Memory) :
  In existing (memories db) -> m_id existing = memory_id ->
  exists row,
    In row (memories db)
    /\ fst (db_update_memory db memory_id updates)
       = validate_Memory (apply_updates (clock db) updates row).
Proof.
  intros Hin Hid. unfold db_update_memory.
  induction (memories db) as [|r rows IH]; [destruct Hin|].
  cbn [map]. destruct (m_id r =? memory_id)%nat eqn:Er.
  - rewrite filter_cons_True by (cbn [apply_updates m_id]; exact Er).
    exists r. split; [left; reflexivity | reflexivity].
  - rewrite filter_cons_False by (rewrite Er; discriminate).
    destruct Hin as [-> | Hin].
    + apply Nat.eqb_neq in Er. contradiction.
    + destruct (IH Hin) as (row & Hrow & Heq).
      exists row. split; [right; exact Hrow|].
      destruct (filter _ (map _ rows)); exact Heq.
Qed.

(** C8.  Updating an existing fact whose confidence and weight are in [0,1]
    with a confidence in [0,1] returns the fact with the mean of the two
    confidences and with the weight raised by 0.1 and capped at 1.0; both are
    in [0,1] again. *)
Theorem update_memory_merge (user_id key : str) (value : pyval) (confidence : Q)
    (source : str) (db : Database) (existing : Memory) :
  find_key key (db_get_user_memories db user_id) = Some existing ->
  (0 <= m_confidence existing <= 1)%Q ->
  (0 <= m_weight existing <= 1)%Q ->
  (0 <= confidence <= 1)%Q ->
  exists updated db',
    update_memory user_id key value confidence source db = (Some updated, db')
    /\ (m_confidence updated == (m_confidence existing + confidence) / 2)%Q
    /\ (m_weight updated == Qmin (m_weight existing + 0.1) 1.0)%Q
    /\ m_value updated = value
    /\ (0 <= m_confidence updated <= 1)%Q
    /\ (0 <= m_weight updated <= 1)%Q.
Proof.
  intros Hfind Hc Hw Hn. unfold update_memory. rewrite Hfind.
  destruct (find_key_row _ _ _ _ Hfind) as (Hin & _ & _).
  set (updates := {| u_value := Some value;
                     u_confidence := Some ((m_confidence existing + confidence) / 2)%Q;
                     u_weight := Some (py_min (m_weight existing + 0.1) 1.0);
                     u_source := Some source;
                     u_needs_confirmation := None;
                     u_confirmed_at := None |}).
  destruct (db_update_memory_row db (m_id existing) updates existing Hin eq_refl)
    as (row & _ & Hrow).
  destruct (db_update_memory db (m_id existing) updates) as [updated db'].
  cbn [fst] in Hrow. subst updated.
  assert (Hmin : (0 <= py_min (m_weight existing + 0.1) 1.0 <= 1)%Q).
  { unfold py_min. destruct (Qlt_le_dec 1.0 (m_weight existing + 0.1)); lra. }
  unfold validate_Memory. cbn [apply_updates m_confidence m_weight updates
    u_confidence u_weight default from_option id].
  assert (Hmean : (0 <= (m_confidence existing + confidence) / 2 <= 1)%Q).
  { clear - Hc Hn. qlra. }
  rewrite (in_unit_true ((m_confidence existing + confidence) / 2)) by apply Hmean.
  rewrite (in_unit_true (py_min (m_weight existing + 0.1) 1.0)) by apply Hmin.
  cbn [andb]. eexists. eexists. split; [reflexivity|].
  cbn [m_confidence m_weight m_value u_value default from_option id].
  repeat split; try apply Hmean; try apply Hmin; try reflexivity.
  apply py_min_Qmin.
Qed.

Lemma update_memory_merge_witness :
  exists updated db',
    update_memory (py "u1") (py "health_info.skin_type") (VStr (py "oily")) 0.6
      (py "update")
      {| memories :=
           [{| m_id := 0; m_created_at := 0; m_updated_at := 0;
               m_user_id := py "u1"; m_key := py "health_info.skin_type";
               m_value := VStr (py "dry"); m_confidence := 0.8; m_weight := 1.0;
               m_source := py "conversation"; m_needs_confirmation := true;
               m_confirmed_at := None; m_expires_at := None |}];
         next_id := 1; clock := 7 |}
    = (Some updated, db')
    /\ (m_confidence updated == 0.7)%Q /\ (m_weight updated == 1)%Q.
Proof.
  destruct (update_memory_merge (py "u1") (py "health_info.skin_type")
              (VStr (py "oily")) 0.6 (py "update")
              {| memories :=
                   [{| m_id := 0; m_created_at := 0; m_updated_at := 0;
                       m_user_id := py "u1"; m_key := py "health_info.skin_type";
                       m_value := VStr (py "dry"); m_confidence := 0.8; m_weight := 1.0;
                       m_source := py "conversation"; m_needs_confirmation := true;
                       m_confirmed_at := None; m_expires_at := None |}];
                 next_id := 1; clock := 7 |}
              {| m_id := 0; m_created_at := 0; m_updated_at := 0;
                 m_user_id := py "u1"; m_key := py "health_info.skin_type";
                 m_value := VStr (py "dry"); m_confidence := 0.8; m_weight := 1.0;
                 m_source := py "conversation"; m_needs_confirmation := true;
                 m_confirmed_at := None; m_expires_at := None |})
    as (updated & db' & Heq & Hc & Hw & _).
  - vm_compute. reflexivity.
  - cbn [m_confidence]. lra.
  - cbn [m_weight]. lra.
  - lra.
  - exists updated, db'. split; [exact Heq|]. split.
    + rewrite Hc. cbn [m_confidence]. vm_compute. reflexivity.
    + rewrite Hw. cbn [m_weight]. vm_compute. reflexivity.
Defined.

(** C10.  When the user has no fact under [key], [update_memory] stores the
    new fact with the configuration of the default category "context"
    (threshold 0.5, weight 0.5), whatever category the key names. *)
Theorem update_memory_absent_uses_context (user_id key : str) (value : pyval)
    (confidence : Q) (source : str) (db : Database) :
  find_key key (db_get_user_memories db user_id) = None ->
  update_memory user_id key value confidence source db
  = _store_memory user_id key value confidence source (py "context") false db
  /\ category_config (py "context")
     = {| cfg_weight := 0.5; confidence_threshold := 0.5 |}
  /\ ((confidence < 0.5)%Q ->
      update_memory user_id key value confidence source db = (None, db))
  /\ ((0.5 <= confidence)%Q -> (confidence <= 1)%Q ->
      exists memory,
        update_memory user_id key value confidence source db
        = (Some memory,
           {| memories := memories db ++ [memory];
              next_id := S (next_id db); clock := clock db |})
        /\ m_key memory = key
        /\ m_confidence memory = confidence
        /\ m_weight memory = 0.5%Q).
Proof.
  intros Hnone.
  assert (Hctx : category_config (py "context")
                 = {| cfg_weight := 0.5; confidence_threshold := 0.5 |})
    by (vm_compute; reflexivity).
  assert (Heq : update_memory user_id key value confidence source db
                = _store_memory user_id key value confidence source
                                (py "context") false db).
  { unfold update_memory. rewrite Hnone. reflexivity. }
  split; [exact Heq|]. split; [exact Hctx|]. rewrite Heq. split.
  - intros Hlow. apply store_memory_rejects. rewrite Hctx. exact Hlow.
  - intros Hge Hle.
    destruct (store_memory_accepts user_id key value confidence source
                (py "context") false db) as (memory & Hs & Hw & Hc & _ & Hk & _).
    + rewrite Hctx. exact Hge.
    + exact Hle.
    + exists memory. rewrite Hctx in Hw. auto.
Qed.

Lemma update_memory_absent_uses_context_witness :
  exists memory db',
    update_memory (py "u1") (py "health_info.pregnancy_status") (VBool true) 0.6
                  (py "update") empty_db = (Some memory, db')
    /\ m_weight memory = 0.5%Q.
Proof.
  destruct (update_memory_absent_uses_context (py "u1")
              (py "health_info.pregnancy_status") (VBool true) 0.6 (py "update")
              empty_db) as (_ & _ & _ & Hstored).
  - vm_compute. reflexivity.
  - destruct Hstored as (memory & Heq & _ & _ & Hw); [lra | lra |].
    exists memory. eexists. split; [exact Heq | exact Hw].
Defined.

(** ** Extraction on the scenario of the specification *)

(** C3.  On "Tôi có thai và bị dị ứng với nước hoa" the health extractor
    records the pregnancy with confidence 0.9 and, under [allergies], the two
    captures "nước hoa" and "với nước hoa" with confidence 0.9: the second
    allergy pattern matches the phrase that the first one has matched and
    keeps the word "với".  Both facts pass the threshold 0.9 and are stored
    with [needs_confirmation] set; the product preference found in the same
    text is stored before them. *)
Theorem scenario_extraction (current_year : Z) :
  _extract_health_info scenario_text
  = [(py "pregnancy_status", {| c_value := VBool true; c_confidence := 0.9 |});
     (py "allergies",
      {| c_value := VList [VStr (py "nước hoa"); VStr (py "với nước hoa")];
         c_confidence := 0.9 |})]
  /\ map fact_view
         (fst (extract_and_store_memories (py "u1") scenario_text
                 (py "conversation") current_year empty_db))
     = [(py "preferences.product_fragrance", VBool true, 0.7, 0.9, false);
        (py "health_info.pregnancy_status", VBool true, 0.9, 1.0, true);
        (py "health_info.allergies",
         VList [VStr (py "nước hoa"); VStr (py "với nước hoa")], 0.9, 1.0, true)]%Q.
Proof. split; vm_compute; reflexivity. Qed.

(** ** Typing delay *)

Lemma py_min_mono (a b c : Q) : (a <= b)%Q -> (py_min a c <= py_min b c)%Q.
Proof.
  intros H. unfold py_min.
  destruct (Qlt_le_dec c a), (Qlt_le_dec c b); lra.
Qed.

Lemma py_max_mono (a b c : Q) : (a <= b)%Q -> (py_max c a <= py_max c b)%Q.
Proof.
  intros H. unfold py_max.
  destruct (Qlt_le_dec c a), (Qlt_le_dec c b); lra.
Qed.

Lemma clamp_bounds (t : Q) : (0.5 <= py_max 0.5 (py_min t 8.0) <= 8.0)%Q.
Proof.
  unfold py_max, py_min.
  destruct (Qlt_le_dec 8.0 t); destruct (Qlt_le_dec 0.5 _); lra.
Qed.

Lemma round_half_even_Z (k : Z) : round_half_even (inject_Z k) = k.
Proof.
  unfold round_half_even. rewrite Qfloor_Z.
  destruct (Qlt_le_dec (inject_Z k - inject_Z k) (1 # 2)); [reflexivity|].
  exfalso. lra.
Qed.

Lemma round_half_even_mono (x y : Q) :
  (x <= y)%Q -> (round_half_even x <= round_half_even y)%Z.
Proof.
  intros H. pose proof (Qfloor_resp_le _ _ H) as Hf.
  unfold round_half_even.
  destruct (Z.eq_dec (Qfloor x) (Qfloor y)) as [E | NE].
  - rewrite <- E. cbv zeta.
    destruct (Qlt_le_dec (x - inject_Z (Qfloor x)) (1 # 2));
      destruct (Qlt_le_dec (y - inject_Z (Qfloor x)) (1 # 2));
      repeat match goal with
             | |- context [Qlt_le_dec ?a ?b] => destruct (Qlt_le_dec a b)
             end;
      try destruct (Z.even (Qfloor x)); try lia; exfalso; lra.
  - cbv zeta.
    repeat match goal with
           | |- context [Qlt_le_dec ?a ?b] => destruct (Qlt_le_dec a b)
           end;
      try destruct (Z.even (Qfloor x)); try destruct (Z.even (Qfloor y)); lia.
Qed.

Lemma round1_mono (x y : Q) : (x <= y)%Q -> (round1 x <= round1 y)%Q.
Proof.
  intros H. unfold round1.
  assert (Hz : (round_half_even (x * 10) <= round_half_even (y * 10))%Z)
    by (apply round_half_even_mono; lra).
  rewrite Zle_Qle in Hz. qlra.
Qed.

Lemma round1_tenths (k : Z) : (round1 (inject_Z k / 10) == inject_Z k / 10)%Q.
Proof.
  unfold round1.
  assert (E : (inject_Z k / 10 * 10 == inject_Z k)%Q) by (field; discriminate).
  assert (Hle : (round_half_even (inject_Z k / 10 * 10) <= k)%Z).
  { rewrite <- (round_half_even_Z k) at 2. apply round_half_even_mono. lra. }
  assert (Hge : (k <= round_half_even (inject_Z k / 10 * 10))%Z).
  { rewrite <- (round_half_even_Z k) at 1. apply round_half_even_mono. lra. }
  replace (round_half_even (inject_Z k / 10 * 10)) with k by lia. reflexivity.
Qed.

Lemma typing_time_mono (n1 n2 : nat) (c : MessageComplexity) (p : TypingPattern) :
  (n1 <= n2)%nat ->
  (of_nat n1 / inject_Z (typing_speeds p) * 60 * complexity_factor c
   <= of_nat n2 / inject_Z (typing_speeds p) * 60 * complexity_factor c)%Q.
Proof.
  intros H. unfold of_nat.
  assert (Hq : (inject_Z (Z.of_nat n1) <= inject_Z (Z.of_nat n2))%Q)
    by (rewrite <- Zle_Qle; lia).
  unfold Qdiv.
  destruct p, c; cbn [typing_speeds complexity_factor];
    [ change (/ inject_Z 70)%Q with (1 # 70)%Q
    | change (/ inject_Z 70)%Q with (1 # 70)%Q
    | change (/ inject_Z 70)%Q with (1 # 70)%Q
    | change (/ inject_Z 50)%Q with (1 # 50)%Q
    | change (/ inject_Z 50)%Q with (1 # 50)%Q
    | change (/ inject_Z 50)%Q with (1 # 50)%Q
    | change (/ inject_Z 30)%Q with (1 # 30)%Q
    | change (/ inject_Z 30)%Q with (1 # 30)%Q
    | change (/ inject_Z 30)%Q with (1 # 30)%Q
    | change (/ inject_Z 25)%Q with (1 # 25)%Q
    | change (/ inject_Z 25)%Q with (1 # 25)%Q
    | change (/ inject_Z 25)%Q with (1 # 25)%Q ];
    lra.
Qed.

(** C6 as the code has it.  The delay lies in [0.5, 8.0] and is a whole
    number of tenths; with complexity and pattern fixed it does not decrease
    from one message to another that has at least as many words and at least
    as much thinking and pause time. *)
Theorem calculate_typing_delay_bounds (m1 m2 : str)
    (complexity : MessageComplexity) (pattern : TypingPattern) :
  (0.5 <= calculate_typing_delay m1 complexity pattern <= 8.0)%Q
  /\ (exists k : Z, calculate_typing_delay m1 complexity pattern == inject_Z k / 10)%Q
  /\ ((word_count m1 <= word_count m2)%nat ->
      (content_time m1 complexity <= content_time m2 complexity)%Q ->
      (calculate_typing_delay m1 complexity pattern
       <= calculate_typing_delay m2 complexity pattern)%Q).
Proof.
  unfold calculate_typing_delay. cbv zeta. split; [|split].
  - match goal with
    | |- (_ <= round1 (py_max _ (py_min ?t _)) <= _)%Q =>
        pose proof (clamp_bounds t) as [Hlo Hhi];
        set (final_time := py_max 0.5 (py_min t 8.0)) in *
    end.
    apply round1_mono in Hlo, Hhi.
    change 0.5%Q with (inject_Z 5 / 10)%Q in Hlo at 1.
    change 8.0%Q with (inject_Z 80 / 10)%Q in Hhi at 1.
    rewrite round1_tenths in Hlo, Hhi.
    change (inject_Z 5 / 10)%Q with 0.5%Q in Hlo.
    change (inject_Z 80 / 10)%Q with 8.0%Q in Hhi.
    split; assumption.
  - eexists. unfold round1. reflexivity.
  - intros Hwords Hcontent. unfold content_time in Hcontent.
    apply round1_mono, py_max_mono, py_min_mono.
    pose proof (typing_time_mono _ _ complexity pattern Hwords). lra.
Qed.

Lemma calculate_typing_delay_bounds_witness :
  (calculate_typing_delay (py "dạ") MEDIUM NORMAL
   <= calculate_typing_delay (py "dạ vâng") MEDIUM NORMAL)%Q.
Proof.
  apply (calculate_typing_delay_bounds (py "dạ") (py "dạ vâng") MEDIUM NORMAL).
  - vm_compute. lia.
  - vm_compute. discriminate.
Defined.

(** C6 as stated fails: a one-word message with marks takes longer than a
    two-word message without. *)
Lemma delay_not_monotone_in_words :
  ~ delay_monotone_in_words (py "Gì?!!") (py "dạ vâng") MEDIUM NORMAL.
Proof.
  unfold delay_monotone_in_words. intros H.
  assert (Hw : (word_count (py "Gì?!!") <= word_count (py "dạ vâng"))%nat)
    by (vm_compute; lia).
  specialize (H Hw). vm_compute in H. apply H. reflexivity.
Qed.

(** ** Distribution of the delay over the chunks *)

Lemma Qsum_cons (x : Q) (l : list Q) : Qsum (x :: l) = (x + Qsum l)%Q.
Proof. reflexivity. Qed.


Lemma of_nat_pos (n : nat) : (0 < n)%nat -> (0 < of_nat n)%Q.
Proof.
  intros H. unfold of_nat. change 0%Q with (inject_Z 0). rewrite <- Zlt_Qlt. lia.
Qed.

Lemma of_nat_plus (a b : nat) : (of_nat (a + b) == of_nat a + of_nat b)%Q.
Proof. unfold of_nat. rewrite Nat2Z.inj_add, inject_Z_plus. reflexivity. Qed.

(** The loop gives every chunk but the last its proportional part and
    subtracts the parts from the remaining delay. *)
Lemma distribute_loop_shares (lengths : list nat) (total : nat) (T : Q)
    (delays : list Q) (remaining : Q) :
  (0 < total)%nat ->
  exists remaining',
    distribute_loop lengths total T delays remaining
    = Ok (delays ++ map (fun l => T * (of_nat l / of_nat total))%Q lengths, remaining')
    /\ (remaining'
        == remaining - Qsum (map (fun l => T * (of_nat l / of_nat total))%Q lengths))%Q.
Proof.
  intros Htotal. revert delays remaining.
  induction lengths as [|l lengths IH]; intros delays remaining;
    cbn [distribute_loop map].
  - exists remaining. rewrite app_nil_r. split; [reflexivity|].
    change (Qsum []) with 0%Q. lra.
  - destruct (total =? 0)%nat eqn:E; [apply Nat.eqb_eq in E; lia|].
    destruct (IH (delays ++ [(T * (of_nat l / of_nat total))%Q])
                 (remaining - T * (of_nat l / of_nat total))%Q)
      as (remaining' & Heq & Hrem).
    exists remaining'. rewrite Heq, <- app_assoc. split; [reflexivity|].
    rewrite Hrem, Qsum_cons. lra.
Qed.

Lemma Qsum_shares (lengths : list nat) (total : nat) (T : Q) :
  (0 < total)%nat ->
  (Qsum (map (fun l => T * (of_nat l / of_nat total))%Q lengths)
   == T * (of_nat (list_sum lengths) / of_nat total))%Q.
Proof.
  intros Htotal. pose proof (of_nat_pos total Htotal) as Hpos.
  induction lengths as [|l lengths IH]; cbn [map].
  - change (Qsum []) with 0%Q. change (of_nat (list_sum [])) with 0%Q.
    unfold Qdiv. ring.
  - change (list_sum (l :: lengths)) with (l + list_sum lengths)%nat.
    rewrite Qsum_cons, IH, of_nat_plus. unfold Qdiv. ring.
Qed.

Lemma map_length_removelast (chunks : list str) :
  removelast (map (@length N) chunks) = map (@length N) (removelast chunks).
Proof.
  induction chunks as [|c [|c' chunks] IH]; try reflexivity.
  cbn [map removelast] in *. rewrite IH. reflexivity.
Qed.

Lemma list_sum_cons (x : nat) (l : list nat) : list_sum (x :: l) = (x + list_sum l)%nat.
Proof. reflexivity. Qed.

Lemma list_sum_removelast (chunks : list str) :
  chunks <> [] ->
  list_sum (map (@length N) chunks)
  = (list_sum (map (@length N) (removelast chunks)) + length (List.last chunks []))%nat.
Proof.
  induction chunks as [|c chunks IH]; intros Hne; [contradiction|].
  destruct chunks as [|c' chunks].
  - cbn. lia.
  - specialize (IH ltac:(discriminate)).
    change (removelast (c :: c' :: chunks)) with (c :: removelast (c' :: chunks)).
    change (List.last (c :: c' :: chunks) []) with (List.last (c' :: chunks) []).
    cbn [map] in *. rewrite !list_sum_cons in *. lia.
Qed.

(** With two chunks or more: the delays of [_distribute_delay] and what is
    left for the last chunk. *)
Lemma distribute_delay_many (chunks : list str) (T : Q) :
  (2 <= length chunks)%nat -> (0 < total_length chunks)%nat ->
  exists remaining,
    _distribute_delay chunks T
    = Ok (map (share chunks T) (removelast chunks) ++ [py_max 0.1 remaining])
    /\ (remaining == share chunks T (List.last chunks []))%Q
    /\ (Qsum (map (share chunks T) (removelast chunks)) + remaining == T)%Q.
Proof.
  intros Hlen Htotal.
  destruct chunks as [|c1 [|c2 rest]]; cbn [length] in Hlen; try lia.
  unfold _distribute_delay, bind. fold (total_length (c1 :: c2 :: rest)).
  set (chunks := c1 :: c2 :: rest) in *.
  destruct (distribute_loop_shares (removelast (map (@length N) chunks))
              (total_length chunks) T [] T Htotal) as (remaining & Heq & Hrem).
  rewrite Heq. cbn [app]. exists remaining.
  rewrite map_length_removelast, map_map in *.
  change (map (fun x : str => (T * (of_nat (length x) / of_nat (total_length chunks)))%Q)
              (removelast chunks))
    with (map (share chunks T) (removelast chunks)) in *.
  split; [reflexivity|].
  assert (Hsum : (Qsum (map (share chunks T) (removelast chunks))
                  + share chunks T (List.last chunks []) == T)%Q).
  { unfold share.
    rewrite <- (map_map (@length N)
                  (fun l => (T * (of_nat l / of_nat (total_length chunks)))%Q)).
    rewrite Qsum_shares by assumption.
    pose proof (of_nat_pos _ Htotal) as Hpos.
    assert (Hab : (of_nat (total_length chunks)
                   == of_nat (list_sum (map (@length N) (removelast chunks)))
                      + of_nat (length (List.last chunks [])))%Q).
    { unfold total_length. rewrite (list_sum_removelast chunks) at 1 by discriminate.
      apply of_nat_plus. }
    set (a := of_nat (list_sum (map (@length N) (removelast chunks)))) in *.
    set (b := of_nat (length (List.last chunks []))) in *.
    set (t := of_nat (total_length chunks)) in *.
    transitivity (T * ((a + b) * / t))%Q; [unfold Qdiv; ring|].
    rewrite <- Hab, Qmult_inv_r by lra. ring. }
  change (map _ (removelast chunks))
    with (map (share chunks T) (removelast chunks)) in Hrem.
  split; lra.
Qed.





(** ** Splitting a message *)


Lemma nospace_cons_space (c : N) (s : str) :
  isspace c = true -> nospace (c :: s) = nospace s.
Proof.
  intros H. unfold nospace. apply filter_cons_False. rewrite H. discriminate.
Qed.

Lemma nospace_cons_other (c : N) (s : str) :
  isspace c = false -> nospace (c :: s) = c :: nospace s.
Proof. intros H. unfold nospace. apply filter_cons_True. exact H. Qed.





Lemma lstrip_blank (s : str) : nospace s = [] -> lstrip s = [].
Proof.
  induction s as [|c s IH]; [reflexivity|].
  cbn [lstrip]. destruct (isspace c) eqn:E.
  - rewrite nospace_cons_space by assumption. exact IH.
  - rewrite nospace_cons_other by assumption. discriminate.
Qed.

Lemma strip_blank (s : str) : nospace s = [] -> strip s = [].
Proof. intros H. unfold strip. rewrite (lstrip_blank s H). reflexivity. Qed.

Lemma nonempty_true (s : str) : nonempty s = true <-> s <> [].
Proof. destruct s; cbn; split; congruence. Qed.

Lemma nonempty_false (s : str) : nonempty s = false <-> s = [].
Proof. destruct s; cbn; split; congruence. Qed.

(** [lstrip] yields nothing or a string that starts with a visible
    character. *)
Lemma lstrip_head (s : str) (a : N) (t : str) :
  lstrip s = a :: t -> isspace a = false.
Proof.
  induction s as [|c s IH]; [discriminate|].
  cbn [lstrip]. destruct (isspace c) eqn:E; [exact IH|].
  intros H. injection H as <- _. exact E.
Qed.

Lemma lstrip_snoc (s : str) (a : N) :
  isspace a = false -> lstrip (s ++ [a]) = lstrip s ++ [a].
Proof.
  intros Ha. induction s as [|c s IH].
  - cbn [app lstrip]. rewrite Ha. reflexivity.
  - cbn [app lstrip]. destruct (isspace c); [exact IH | reflexivity].
Qed.

Lemma rstrip_cons (a : N) (s : str) :
  isspace a = false -> rstrip (a :: s) = a :: rstrip s.
Proof.
  intros Ha. unfold rstrip. cbn [rev].
  rewrite lstrip_snoc by assumption. rewrite rev_app_distr. reflexivity.
Qed.

Lemma lstrip_idem (s : str) : lstrip (lstrip s) = lstrip s.
Proof.
  induction s as [|c s IH]; [reflexivity|].
  cbn [lstrip]. destruct (isspace c) eqn:E; [exact IH|].
  cbn [lstrip]. rewrite E. reflexivity.
Qed.

Lemma rstrip_idem (s : str) : rstrip (rstrip s) = rstrip s.
Proof. unfold rstrip. rewrite rev_involutive, lstrip_idem. reflexivity. Qed.

Lemma strip_idem (s : str) : strip (strip s) = strip s.
Proof.
  unfold strip. destruct (lstrip s) as [|a t] eqn:E; [reflexivity|].
  pose proof (lstrip_head _ _ _ E) as Ha.
  rewrite rstrip_cons by assumption.
  cbn [lstrip]. rewrite Ha.
  rewrite rstrip_cons by assumption. rewrite rstrip_idem. reflexivity.
Qed.






















Lemma cleanup_chunks (chunks : list str) :
  Forall (fun chunk => chunk <> [] /\ strip chunk = chunk /\ nospace chunk <> [])
         (map strip (filter (fun chunk => nonempty (strip chunk) = true) chunks)).
Proof.
  induction chunks as [|c chunks IH]; [constructor|].
  destruct (nonempty (strip c)) eqn:E.
  - rewrite filter_cons_True by assumption. cbn [map].
    constructor; [|exact IH].
    apply nonempty_true in E.
    split; [exact E|]. split; [apply strip_idem|].
    intros Hblank. apply E. rewrite <- strip_idem. apply strip_blank, Hblank.
  - rewrite filter_cons_False by (rewrite E; discriminate). exact IH.
Qed.





(** In sentence mode a sentence that does not fit after an open chunk is
    kept whole: here the second chunk has twenty characters and four words
    while [max_length] is ten. *)
Lemma long_sentence_kept_whole :
  split_long_message (py "Hi. aaaa bbbb cccc dddd.") 10 true
  = [py "Hi."; py "aaaa bbbb cccc dddd."].
Proof. vm_compute. reflexivity. Qed.

(** The scenario of the specification: one chunk for each sentence, the last
    of twenty characters once stripped. *)
Lemma split_scenario :
  split_long_message (py "Xin chào. Bạn khỏe không? Hôm nay mình muốn...") 20 true
  = [py "Xin chào."; py "Bạn khỏe không?"; py "Hôm nay mình muốn..."].
Proof. vm_compute. reflexivity. Qed.

(** The runs of marks that [re.findall] finds with the pattern of
    [re.split] are the pieces of [re_split_marks] at the odd places. *)
Lemma re_split_marks_agrees :
  re_split_marks (py "Hi.. a! b?") = [py "Hi"; py ".."; py " a"; py "!"; py " b"; py "?"; []]
  /\ re_findall false (Grp (Rep (Cls is_mark) 1 None)) (py "Hi.. a! b?")
     = [py ".."; py "!"; py "?"].
Proof. split; vm_compute; reflexivity. Qed.

(** Two chunks or more without a character: the first weight divides by
    zero. *)
Lemma distribute_delay_empty_chunks (T : Q) :
  _distribute_delay [[]; []] T = Raise ZeroDivisionError.
Proof. reflexivity. Qed.

(** * Further properties *)

(** ** Typing delay, complexity and pattern *)

Lemma of_nat_nonneg (n : nat) : (0 <= of_nat n)%Q.
Proof.
  unfold of_nat. change 0%Q with (inject_Z 0). rewrite <- Zle_Qle. lia.
Qed.

Lemma fold_left_grows {A} (f : Q -> A -> Q) (l : list A) (t0 : Q) :
  (forall t x, (t <= f t x)%Q) -> (t0 <= fold_left f l t0)%Q.
Proof.
  intros Hf. revert t0. induction l as [|x l IH]; intros t0; cbn [fold_left].
  - lra.
  - specialize (IH (f t0 x)). specialize (Hf t0 x). lra.
Qed.

Lemma thinking_words_fold (words : list str) (message_lower : str) (t0 : Q) :
  (t0 <= fold_left (fun t word => if contains word message_lower
                                  then (t + 0.3)%Q else t) words t0)%Q.
Proof.
  apply fold_left_grows. intros t w. destruct (contains w message_lower); lra.
Qed.

Lemma thinking_time_lower (message : str) (c : MessageComplexity) :
  (base_thinking c <= _calculate_thinking_time message c)%Q.
Proof.
  unfold _calculate_thinking_time. cbv zeta.
  pose proof (thinking_words_fold thinking_words (lower message)
                (0.0 + base_thinking c)%Q) as H.
  destruct (contains (py "?") message); destruct (existsb isdigit message); lra.
Qed.

Lemma pause_fold (indicators : list N) (message : str) (t0 : Q) :
  (t0 <= fold_left
           (fun t indicator =>
              let count := of_nat (count_char indicator message) in
              if existsb (N.eqb indicator) [46; 33; 63]%N
              then (t + count * 0.3)%Q
              else (t + count * 0.1)%Q)
           indicators t0)%Q.
Proof.
  apply fold_left_grows. intros t i. cbv zeta.
  pose proof (of_nat_nonneg (count_char i message)) as Hc.
  destruct (existsb (N.eqb i) [46; 33; 63]%N); lra.
Qed.

Lemma pause_time_nonneg (message : str) : (0 <= _calculate_pause_time message)%Q.
Proof.
  unfold _calculate_pause_time.
  pose proof (pause_fold pause_indicators message 0.0%Q) as H.
  pose proof (of_nat_nonneg (count_char 10 message)) as Hn.
  cbv zeta in *. lra.
Qed.

Lemma typing_time_twelve (c : MessageComplexity) (p : TypingPattern) :
  (7.8 <= of_nat 12 / inject_Z (typing_speeds p) * 60 * complexity_factor c)%Q.
Proof. destruct p, c; vm_compute; discriminate. Qed.

(** X1.  A message of twelve words or more gets the longest delay, 8.0 seconds,
    whatever its complexity and the typing pattern. *)
Theorem delay_saturates (message : str) (c : MessageComplexity) (p : TypingPattern) :
  (12 <= word_count message)%nat ->
  (calculate_typing_delay message c p == 8.0)%Q.
Proof.
  intros Hwords. unfold calculate_typing_delay. cbv zeta.
  pose proof (typing_time_mono 12 (word_count message) c p Hwords) as Hmono.
  pose proof (typing_time_twelve c p) as H12.
  pose proof (thinking_time_lower message c) as Hthink.
  pose proof (pause_time_nonneg message) as Hpause.
  assert (Hbase : (0.2 <= base_thinking c)%Q) by (destruct c; vm_compute; discriminate).
  set (total := (of_nat (word_count message) / inject_Z (typing_speeds p) * 60
                 * complexity_factor c + _calculate_thinking_time message c
                 + _calculate_pause_time message)%Q).
  assert (Htotal : (8.0 <= total)%Q) by (unfold total; lra).
  assert (Hfinal : (8.0 <= py_max 0.5 (py_min total 8.0)
                    /\ py_max 0.5 (py_min total 8.0) <= 8.0)%Q).
  { unfold py_max, py_min.
    destruct (Qlt_le_dec 8.0 total); destruct (Qlt_le_dec 0.5 _); lra. }
  destruct Hfinal as [Hlo Hhi]. apply round1_mono in Hlo, Hhi.
  assert (H8 : (round1 8.0 == 8.0)%Q).
  { change 8.0%Q with (inject_Z 80 / 10)%Q. apply round1_tenths. }
  rewrite H8 in Hlo, Hhi. apply Qle_antisym; assumption.
Qed.

Lemma delay_saturates_witness :
  (calculate_typing_delay
     (py "Dạ em chào chị, em có thể giúp gì cho chị hôm nay ạ") SIMPLE FAST == 8.0)%Q.
Proof.
  apply (delay_saturates
           (py "Dạ em chào chị, em có thể giúp gì cho chị hôm nay ạ") SIMPLE FAST).
  vm_compute. lia.
Defined.

Lemma re_split_go_no_marks (cur s : str) :
  Forall (fun c => is_mark c = false) s ->
  re_split_go false cur s = [rev cur ++ s].
Proof.
  intros H. revert cur. induction H as [|c s Hc _ IH]; intros cur.
  - cbn [re_split_go]. rewrite app_nil_r. reflexivity.
  - cbn [re_split_go]. rewrite Hc, IH. cbn [rev]. rewrite <- app_assoc. reflexivity.
Qed.

(** X2.  A message without [.], [!] or [?] counts as one sentence at most, so its
    complexity is decided by the number of words alone. *)
Theorem unpunctuated_complexity (message : str) :
  Forall (fun c => is_mark c = false) message ->
  determine_complexity message
  = if (word_count message <=? 10)%nat then SIMPLE
    else if (word_count message <=? 50)%nat then MEDIUM
    else COMPLEX.
Proof.
  intros H. unfold determine_complexity, re_split_marks, word_count.
  rewrite (re_split_go_no_marks [] message H). cbn [rev app text_pieces].
  assert (Hs : (length (filter (fun s => nonempty (strip s) = true) [message]) <= 1)%nat).
  { etransitivity; [apply length_filter | reflexivity]. }
  cbv zeta.
  replace (length (filter (fun s => nonempty (strip s) = true) [message]) <=? 1)%nat
    with true by (symmetry; apply Nat.leb_le; exact Hs).
  replace (length (filter (fun s => nonempty (strip s) = true) [message]) <=? 3)%nat
    with true by (symmetry; apply Nat.leb_le; lia).
  rewrite !andb_true_r. reflexivity.
Qed.

Lemma unpunctuated_complexity_witness :
  determine_complexity (py "Dạ vâng ạ") = SIMPLE.
Proof.
  apply (unpunctuated_complexity (py "Dạ vâng ạ")).
  vm_compute. repeat constructor.
Defined.

Lemma str_eqb_eq (a b : str) : str_eqb a b = true -> a = b.
Proof. unfold str_eqb. apply bool_decide_eq_true_1. Qed.

(** The base pattern of an agent: SLOW for "handoff_human" and for no other
    name. *)
Lemma base_pattern_cases (agent_type : str) :
  (agent_type = py "handoff_human"
   /\ table_get agent_patterns agent_type NORMAL = SLOW)
  \/ (agent_type <> py "handoff_human"
      /\ (table_get agent_patterns agent_type NORMAL = NORMAL
          \/ table_get agent_patterns agent_type NORMAL = FAST)).
Proof.
  unfold agent_patterns. cbn [table_get].
  repeat match goal with
         | |- context [if str_eqb ?a agent_type then _ else _] =>
             let E := fresh "E" in
             destruct (str_eqb a agent_type) eqn:E;
             [apply str_eqb_eq in E; subst agent_type|]
         end;
    try (right; split; [vm_compute; discriminate | auto]; fail);
    try (left; split; reflexivity).
  right. split; [|auto].
  intros ->. vm_compute in E2. discriminate.
Qed.

(** X3.  A COMPLEX message is never typed FAST; the pattern is SLOW for the agent
    "handoff_human" and for no other; THINKING is used for COMPLEX messages
    only. *)
Theorem typing_pattern_cases (agent_type : str) (c : MessageComplexity) :
  determine_typing_pattern agent_type COMPLEX <> FAST
  /\ (determine_typing_pattern agent_type c = SLOW <-> agent_type = py "handoff_human")
  /\ (determine_typing_pattern agent_type c = THINKING -> c = COMPLEX).
Proof.
  unfold determine_typing_pattern. cbv zeta.
  destruct (base_pattern_cases agent_type) as [[Ha Hb] | [Ha [Hb | Hb]]];
    rewrite !Hb.
  - split; [discriminate|]. split; [|destruct c; discriminate].
    split; [intros _; exact Ha | intros _; destruct c; reflexivity].
  - split; [discriminate|]. split; [|destruct c; try discriminate; reflexivity].
    split; [destruct c; discriminate | intros H; contradiction].
  - split; [discriminate|]. split; [|destruct c; discriminate].
    split; [destruct c; discriminate | intros H; contradiction].
Qed.

(** ** The word split within its limit *)

Lemma words_step_limit (max_length : Z) (st : list str * str) (word : str) :
  (len word <= max_length)%Z ->
  Forall (fun c => (len c <= max_length)%Z) (fst st) ->
  (len (snd st) <= max_length)%Z ->
  Forall (fun c => (len c <= max_length)%Z) (fst (words_step max_length st word))
  /\ (len (snd (words_step max_length st word)) <= max_length)%Z.
Proof.
  intros Hw Hchunks Hcur. destruct st as [chunks current]. cbn [fst snd] in *.
  unfold words_step.
  destruct (len (current ++ py " " ++ word) <=? max_length)%Z eqn:El;
    destruct (nonempty current) eqn:Ec; cbn [fst snd].
  - split; [assumption | apply Z.leb_le; exact El].
  - split; assumption.
  - split; [|assumption].
    apply Forall_app. split; [assumption|]. constructor; [assumption | constructor].
  - split.
    + apply Forall_app. split; [assumption|]. constructor; [|constructor].
      unfold len, slice_to in *. rewrite length_take. lia.
    + unfold len, slice_from in *. rewrite length_drop. lia.
Qed.

Lemma words_fold_limit (max_length : Z) (words : list str) (st : list str * str) :
  Forall (fun w => (len w <= max_length)%Z) words ->
  Forall (fun c => (len c <= max_length)%Z) (fst st) ->
  (len (snd st) <= max_length)%Z ->
  Forall (fun c => (len c <= max_length)%Z)
         (fst (fold_left (words_step max_length) words st))
  /\ (len (snd (fold_left (words_step max_length) words st)) <= max_length)%Z.
Proof.
  revert st. induction words as [|w words IH]; intros st Hw Hchunks Hcur;
    cbn [fold_left]; [split; assumption|].
  inversion Hw as [|? ? Hw1 Hw2]; subst.
  destruct (words_step_limit max_length st w) as [Hb1 Hb2]; try assumption.
  apply IH; assumption.
Qed.

(** X4.  When no word of the text is longer than [max_length], no chunk of the
    word split is. *)
Theorem split_by_words_within_limit (text : str) (max_length : Z) :
  Forall (fun w => (len w <= max_length)%Z) (split text) ->
  Forall (fun c => (len c <= max_length)%Z) (_split_by_words text max_length).
Proof.
  intros Hw. unfold _split_by_words.
  destruct (split text) as [|w words] eqn:Es; [constructor|].
  assert (H0 : (0 <= max_length)%Z).
  { inversion Hw; subst. unfold len in *. lia. }
  destruct (words_fold_limit max_length (w :: words) ([], []) Hw) as [H1 H2];
    [constructor | exact H0 |].
  destruct (fold_left (words_step max_length) (w :: words) ([], []))
    as [chunks current]. cbn [fst snd] in *.
  destruct (nonempty current); [|assumption].
  apply Forall_app. split; [assumption|]. constructor; [assumption | constructor].
Qed.

Lemma split_by_words_within_limit_witness :
  Forall (fun c => (len c <= 10)%Z) (_split_by_words (py "Hôm nay mình muốn mua son") 10).
Proof.
  apply (split_by_words_within_limit (py "Hôm nay mình muốn mua son") 10).
  vm_compute. repeat constructor; discriminate.
Defined.

(** ** The events of a simulated typing *)

Lemma typing_events_delivered (i total : nat) (cds : list (str * Q)) :
  delivered (typing_events i total cds) = map fst cds
  /\ sleeps (typing_events i total cds) = map snd cds
  /\ length (typing_events i total cds) = (3 * length cds)%nat.
Proof.
  revert i. induction cds as [|[chunk delay] cds IH]; intros i.
  - repeat split.
  - destruct (IH (S i)) as (Hd & Hs & Hl).
    cbn [typing_events]. unfold delivered, sleeps in *.
    rewrite !flat_map_app, Hd, Hs, length_app, Hl. cbn. repeat split. lia.
Qed.

Lemma typing_events_finals (i total : nat) (cds : list (str * Q)) :
  (i + length cds = total)%nat ->
  finals (typing_events i total cds)
  = match cds with [] => [] | _ => [fst (List.last cds ([], 0%Q))] end.
Proof.
  revert i. induction cds as [|[chunk delay] cds IH]; intros i Hi; [reflexivity|].
  cbn [typing_events length] in *. unfold finals in *.
  rewrite flat_map_app, (IH (S i)) by lia.
  cbn [flat_map app].
  destruct cds as [|cd cds'].
  - replace (i =? total - 1)%nat with true by (symmetry; apply Nat.eqb_eq; cbn in Hi; lia).
    reflexivity.
  - replace (i =? total - 1)%nat with false
      by (symmetry; apply Nat.eqb_neq; cbn [length] in Hi; lia).
    reflexivity.
Qed.

Lemma combine_fst_snd {A B} (l : list A) (l' : list B) :
  length l = length l' ->
  map fst (combine l l') = l /\ map snd (combine l l') = l'.
Proof.
  revert l'. induction l as [|a l IH]; intros [|b l'] Hl; try discriminate.
  - split; reflexivity.
  - cbn [length] in Hl. destruct (IH l') as [H1 H2]; [lia|].
    cbn [combine map fst snd]. rewrite H1, H2. split; reflexivity.
Qed.

(** The delay can be distributed unless several chunks have no character
    at all. *)
Lemma distribute_delay_ok (chunks : list str) (T : Q) :
  ((2 <= length chunks)%nat -> (0 < total_length chunks)%nat) ->
  exists delays,
    _distribute_delay chunks T = Ok delays /\ length delays = length chunks.
Proof.
  intros Htotal.
  destruct chunks as [|c1 [|c2 rest]].
  - exists []. split; reflexivity.
  - exists [T]. split; reflexivity.
  - set (chunks := c1 :: c2 :: rest) in *.
    assert (H2 : (2 <= length chunks)%nat) by (cbn [length chunks]; lia).
    destruct (distribute_delay_many chunks T H2 (Htotal H2)) as (remaining & Heq & _).
    eexists. split; [exact Heq|].
    assert (Hsplit : chunks = removelast chunks ++ [List.last chunks []])
      by (apply app_removelast_last; discriminate).
    assert (Hlen : length chunks = S (length (removelast chunks))).
    { rewrite Hsplit at 1. rewrite length_app. cbn [length]. lia. }
    rewrite length_app, length_map. cbn [length]. lia.
Qed.

(** With two chunks or more and no character in any, the first weight
    divides by zero. *)
Lemma distribute_delay_zero (chunks : list str) (T : Q) :
  (2 <= length chunks)%nat -> total_length chunks = 0%nat ->
  _distribute_delay chunks T = Raise ZeroDivisionError.
Proof.
  intros Hlen Hz. destruct chunks as [|c1 [|c2 rest]]; cbn [length] in Hlen; try lia.
  unfold _distribute_delay, bind. fold (total_length (c1 :: c2 :: rest)).
  rewrite Hz. reflexivity.
Qed.


(** X5.  [_distribute_delay] gives one delay for each chunk, and fails in one
    case only: two chunks or more without a single character, where the
    first weight divides by zero. *)
Theorem distribute_delay_cases (chunks : list str) (T : Q) :
  match _distribute_delay chunks T with
  | Ok delays =>
      length delays = length chunks
      /\ ((length chunks < 2)%nat \/ (0 < total_length chunks)%nat)
  | Raise e =>
      e = ZeroDivisionError
      /\ (2 <= length chunks)%nat /\ total_length chunks = 0%nat
  end.
Proof.
  destruct (Nat.le_gt_cases 2 (length chunks)) as [Hlen | Hlen];
    [destruct (Nat.eq_0_gt_0_cases (total_length chunks)) as [Hz | Hpos]|].
  - rewrite (distribute_delay_zero chunks T Hlen Hz). auto.
  - destruct (distribute_delay_ok chunks T (fun _ => Hpos)) as (delays & -> & Hl).
    auto.
  - destruct (distribute_delay_ok chunks T) as (delays & -> & Hl); [lia|]. auto.
Qed.

Lemma split_chunks_total (message : str) (max_length : Z) (preserve_sentences : bool) :
  (2 <= length (split_long_message message max_length preserve_sentences))%nat ->
  (0 < total_length (split_long_message message max_length preserve_sentences))%nat.
Proof.
  unfold split_long_message.
  destruct (len message <=? max_length)%Z; [cbn [length]; lia|].
  match goal with
  | |- context [map strip (filter ?P ?l)] =>
      pose proof (cleanup_chunks l) as H; destruct (map strip (filter P l)) as [|c cs]
  end; [cbn [length]; lia|].
  intros _. inversion H as [|? ? [Hne _] _]; subst.
  unfold total_length. cbn [map list_sum fold_right].
  destruct c; [contradiction | cbn [length]; lia].
Qed.

Lemma last_map_fst {A B} (l : list (A * B)) (d : A * B) :
  List.last (map fst l) (fst d) = fst (List.last l d).
Proof.
  induction l as [|x l IH]; [reflexivity|].
  destruct l as [|y l]; [reflexivity|].
  change (List.last (x :: y :: l) d) with (List.last (y :: l) d).
  change (map fst (x :: y :: l)) with (fst x :: map fst (y :: l)).
  change (List.last (fst x :: map fst (y :: l)) (fst d))
    with (List.last (map fst (y :: l)) (fst d)).
  exact IH.
Qed.

Lemma real_time_typing_trace (chunks : list str) (T : Q) (delays : list Q) :
  _distribute_delay chunks T = Ok delays ->
  length delays = length chunks ->
  exists events,
    _simulate_real_time_typing chunks T = Ok (events ++ [typing_complete T])
    /\ delivered events = chunks
    /\ sleeps events = delays
    /\ finals events = match chunks with [] => [] | _ => [List.last chunks []] end
    /\ length events = (3 * length chunks)%nat.
Proof.
  intros Hd Hl. unfold _simulate_real_time_typing, bind. rewrite Hd.
  eexists. split; [reflexivity|].
  destruct (typing_events_delivered 0 (length chunks) (combine chunks delays))
    as (H1 & H2 & H3).
  destruct (combine_fst_snd chunks delays (eq_sym Hl)) as [Hf Hs].
  rewrite H1, H2, H3, Hf, Hs.
  split; [reflexivity|]. split; [reflexivity|]. split.
  - rewrite typing_events_finals
      by (rewrite length_combine; cbn [plus]; lia).
    pose proof (last_map_fst (combine chunks delays) ([], 0%Q)) as Hlast.
    rewrite Hf in Hlast. cbn [fst] in Hlast. rewrite <- Hlast.
    destruct chunks as [|c chunks]; [reflexivity|].
    destruct delays as [|d delays]; [discriminate|]. reflexivity.
  - rewrite length_combine. lia.
Qed.



(** X7.  [simulate_typing] never raises, with a callback or without: the chunks
    of [split_long_message] can always be given their delays.  With a
    callback the data are the same and the callback receives every chunk. *)
Theorem simulate_typing_total (message agent_type : str) :
  exists data events delays,
    simulate_typing message agent_type false = Ok (data, [])
    /\ simulate_typing message agent_type true
       = Ok (data, events ++ [typing_complete (total_delay data)])
    /\ _distribute_delay (chunks data) (total_delay data) = Ok delays
    /\ delivered events = chunks data
    /\ sleeps events = delays
    /\ chunk_count data = length (chunks data)
    /\ chunks data = split_long_message message 200 true.
Proof.
  unfold simulate_typing. cbv zeta.
  set (T := calculate_typing_delay message (determine_complexity message)
              (determine_typing_pattern agent_type (determine_complexity message))).
  destruct (distribute_delay_ok (split_long_message message 200 true) T
              (split_chunks_total message 200 true)) as (delays & Hd & Hl).
  destruct (real_time_typing_trace _ T delays Hd Hl) as (events & He & Hdel & Hs & _).
  eexists. exists events, delays.
  split; [reflexivity|]. unfold bind. rewrite He.
  cbn [chunks total_delay chunk_count]. repeat split; assumption.
Qed.

(** ** The memory engine: confirmation, extraction, validity of the store *)

(** What [_store_memory] can do: nothing, or append one row made of its
    arguments. *)
Lemma store_memory_result (user_id key : str) (value : pyval) (confidence : Q)
    (source category : str) (needs_confirmation : bool) (db : Database) :
  _store_memory user_id key value confidence source category needs_confirmation db
  = (None, db)
  \/ exists m,
       _store_memory user_id key value confidence source category
                     needs_confirmation db
       = (Some m, {| memories := memories db ++ [m];
                     next_id := S (next_id db); clock := clock db |})
       /\ m_user_id m = user_id /\ m_key m = key /\ m_value m = value
       /\ m_confidence m = confidence /\ m_source m = source
       /\ m_needs_confirmation m = needs_confirmation
       /\ m_weight m = cfg_weight (category_config category)
       /\ (confidence_threshold (category_config category) <= confidence)%Q
       /\ in_unit confidence = true.
Proof.
  unfold _store_memory.
  destruct (Qlt_le_dec confidence (confidence_threshold (category_config category)))
    as [Hlt | Hge]; [left; reflexivity|].
  unfold new_MemoryCreate.
  destruct (in_unit confidence) eqn:Ec; [|left; reflexivity].
  destruct (in_unit (cfg_weight (category_config category))) eqn:Ew;
    [|left; reflexivity].
  right. cbn [andb]. unfold db_create_memory. eexists.
  split; [reflexivity|].
  cbn [m_user_id m_key m_value m_confidence m_source m_needs_confirmation m_weight
       mc_user_id mc_key mc_value mc_confidence mc_source mc_needs_confirmation
       mc_weight].
  repeat split; try reflexivity. exact Hge.
Qed.

(** The facts a storing loop returns are the rows it appends. *)
Lemma store_all_appends (user_id source category : str) (needs_confirmation : bool)
    (items : Candidates) (st : list Memory * Database) :
  exists new,
    fst (store_all user_id source category needs_confirmation items st)
    = fst st ++ new
    /\ memories (snd (store_all user_id source category needs_confirmation items st))
       = memories (snd st) ++ new
    /\ Forall (fun m =>
                 m_user_id m = user_id /\ m_source m = source
                 /\ m_needs_confirmation m = needs_confirmation
                 /\ in_unit (m_confidence m) = true
                 /\ in_unit (m_weight m) = true
                 /\ exists k c,
                      In (k, c) items
                      /\ m_key m = category ++ py "." ++ k
                      /\ m_confidence m = c_confidence c
                      /\ (confidence_threshold (category_config category)
                          <= c_confidence c)%Q)
              new.
Proof.
  revert st. induction items as [|[key value] items IH]; intros [extracted db].
  - exists []. unfold store_all. cbn [fold_left fst snd]. rewrite !app_nil_r.
    repeat split. constructor.
  - unfold store_all in *. cbn [fold_left].
    destruct (store_memory_result user_id (category ++ py "." ++ key)
                (c_value value) (c_confidence value) source category
                needs_confirmation db)
      as [Hnone | (m & Hsome & Hu & Hk & _ & Hc & Hs & Hn & Hw & Hthr & Hunit)].
    + rewrite Hnone.
      destruct (IH (extracted, db)) as (new & H1 & H2 & H3).
      exists new. split; [exact H1|]. split; [exact H2|].
      eapply Forall_impl; [exact H3|].
      intros m' (A & B & C & D & E & k & c & Hin & F).
      repeat (split; [assumption|]). exists k, c. split; [right; exact Hin | exact F].
    + rewrite Hsome.
      match goal with
      | |- context [fold_left ?f items (?e, ?d)] =>
          destruct (IH (e, d)) as (new & H1 & H2 & H3)
      end.
      exists (m :: new). cbn [fst snd memories] in *.
      split; [rewrite H1, <- app_assoc; reflexivity|].
      split; [rewrite H2, <- app_assoc; reflexivity|].
      constructor.
      * repeat (split; [assumption|]).
        split; [rewrite Hc; exact Hunit|].
        split; [rewrite Hw; apply in_unit_true; apply category_config_bounds|].
        exists key, value. split; [left; reflexivity|].
        split; [exact Hk|]. split; [exact Hc | exact Hthr].
      * eapply Forall_impl; [exact H3|].
        intros m' (A & B & C & D & E & k & c & Hin & F).
        repeat (split; [assumption|]). exists k, c.
        split; [right; exact Hin | exact F].
Qed.

Lemma dict_set_In {A} (d : list (str * A)) (key k : str) (x v : A) :
  In (k, v) (dict_set d key x) -> (k = key /\ v = x) \/ In (k, v) d.
Proof.
  induction d as [|[k' v'] d IH]; cbn [dict_set].
  - intros [H | []]. injection H as <- <-. left. split; reflexivity.
  - destruct (str_eqb k' key) eqn:E.
    + intros [H | H].
      * injection H as <- <-. apply str_eqb_eq in E. left. split; [exact E | reflexivity].
      * right. right. exact H.
    + intros [H | H]; [right; left; exact H|].
      destruct (IH H) as [Hnew | Hold]; [left; exact Hnew | right; right; exact Hold].
Qed.

(** What the health extractor records under each key: the skin type always
    with confidence 0.8, the other two with 0.9. *)
Lemma extract_health_info_confidence (text k : str) (c : Candidate) :
  In (k, c) (_extract_health_info text) ->
  (k = py "skin_type" /\ (c_confidence c == 0.8)%Q)
  \/ ((k = py "pregnancy_status" \/ k = py "allergies") /\ (c_confidence c == 0.9)%Q).
Proof.
  unfold _extract_health_info. cbv zeta.
  set (allergies := fold_left _ allergy_patterns []).
  set (h1 := if existsb _ pregnancy_keywords then _ else _).
  set (h2 := if negb _ then _ else h1).
  assert (H1 : forall k c, In (k, c) h1 ->
                 k = py "pregnancy_status" /\ (c_confidence c == 0.9)%Q).
  { intros k' c'. unfold h1. destruct (existsb _ pregnancy_keywords); [|intros []].
    intros H. apply dict_set_In in H as [[-> ->] | []]. split; reflexivity. }
  assert (H2 : forall k c, In (k, c) h2 ->
                 (k = py "pregnancy_status" \/ k = py "allergies")
                 /\ (c_confidence c == 0.9)%Q).
  { intros k' c'. unfold h2. destruct (negb _).
    - intros H. apply dict_set_In in H as [[-> ->] | H].
      + split; [right; reflexivity | reflexivity].
      + destruct (H1 _ _ H) as [Hk Hc]. split; [left; exact Hk | exact Hc].
    - intros H. destruct (H1 _ _ H) as [Hk Hc]. split; [left; exact Hk | exact Hc]. }
  destruct (List.find _ skin_types) as [[vietnamese english]|].
  - intros H. apply dict_set_In in H as [[-> ->] | H].
    + left. split; reflexivity.
    + right. apply H2, H.
  - intros H. right. apply H2, H.
Qed.

(** X8.  The facts returned by [extract_and_store_memories] are exactly the rows
    it appends to the store, in order; each belongs to the user, carries the
    source, and needs confirmation exactly when it is a health fact. *)
Theorem extract_and_store_appends (user_id text source : str) (current_year : Z)
    (db : Database) :
  memories (snd (extract_and_store_memories user_id text source current_year db))
  = memories db ++ fst (extract_and_store_memories user_id text source current_year db)
  /\ Forall (fun m =>
               m_user_id m = user_id /\ m_source m = source
               /\ m_needs_confirmation m = starts_with (py "health_info.") (m_key m))
            (fst (extract_and_store_memories user_id text source current_year db)).
Proof.
  unfold extract_and_store_memories. cbv zeta.
  destruct (store_all_appends user_id source (py "personal_info") false
              (_extract_personal_info text current_year) ([], db))
    as (n1 & F1 & M1 & P1).
  set (st1 := store_all user_id source (py "personal_info") false _ ([], db)) in *.
  destruct (store_all_appends user_id source (py "preferences") false
              (_extract_preferences text) st1) as (n2 & F2 & M2 & P2).
  set (st2 := store_all user_id source (py "preferences") false _ st1) in *.
  destruct (store_all_appends user_id source (py "health_info") true
              (_extract_health_info text) st2) as (n3 & F3 & M3 & P3).
  set (st3 := store_all user_id source (py "health_info") true _ st2) in *.
  cbn [fst snd app] in F1, M1.
  split.
  - rewrite M3, M2, M1, F3, F2, F1, <- !app_assoc. reflexivity.
  - rewrite F3, F2, F1. repeat apply Forall_app_2.
    + eapply Forall_impl; [exact P1|].
      intros m (A & B & C & _ & _ & k & c & _ & -> & _).
      repeat (split; [assumption|]). rewrite C. reflexivity.
    + eapply Forall_impl; [exact P2|].
      intros m (A & B & C & _ & _ & k & c & _ & -> & _).
      repeat (split; [assumption|]). rewrite C. reflexivity.
    + eapply Forall_impl; [exact P3|].
      intros m (A & B & C & _ & _ & k & c & _ & -> & _).
      repeat (split; [assumption|]). rewrite C.
      change (py "health_info" ++ py "." ++ k) with (py "health_info." ++ k).
      generalize (py "health_info."). clear.
      intros p. induction p as [|a p IH]; [reflexivity|].
      cbn [app starts_with]. rewrite N.eqb_refl. exact IH.
Qed.

(** X9.  The extraction never stores a skin type: the extractor gives it the
    confidence 0.8, below the threshold 0.9 of health facts. *)
Theorem skin_type_never_stored (user_id text source : str) (current_year : Z)
    (db : Database) :
  Forall (fun m => m_key m <> py "health_info.skin_type")
         (fst (extract_and_store_memories user_id text source current_year db)).
Proof.
  unfold extract_and_store_memories. cbv zeta.
  destruct (store_all_appends user_id source (py "personal_info") false
              (_extract_personal_info text current_year) ([], db))
    as (n1 & F1 & _ & P1).
  set (st1 := store_all user_id source (py "personal_info") false _ ([], db)) in *.
  destruct (store_all_appends user_id source (py "preferences") false
              (_extract_preferences text) st1) as (n2 & F2 & _ & P2).
  set (st2 := store_all user_id source (py "preferences") false _ st1) in *.
  destruct (store_all_appends user_id source (py "health_info") true
              (_extract_health_info text) st2) as (n3 & F3 & _ & P3).
  cbn [fst snd app] in F1.
  rewrite F3, F2, F1. repeat apply Forall_app_2.
  - eapply Forall_impl; [exact P1|].
    intros m (_ & _ & _ & _ & _ & k & c & _ & -> & _). discriminate.
  - eapply Forall_impl; [exact P2|].
    intros m (_ & _ & _ & _ & _ & k & c & _ & -> & _). discriminate.
  - eapply Forall_impl; [exact P3|].
    intros m (_ & _ & _ & _ & _ & k & c & Hin & -> & _ & Hthr) Hkey.
    change (py "health_info" ++ py "." ++ k) with (py "health_info." ++ k) in Hkey.
    change (py "health_info.skin_type")
      with (py "health_info." ++ py "skin_type") in Hkey.
    apply app_inv_head in Hkey. subst k.
    destruct (extract_health_info_confidence text _ c Hin) as [[_ Hc] | [[Hk | Hk] _]].
    + change (confidence_threshold (category_config (py "health_info")))
        with 0.9%Q in Hthr. lra.
    + vm_compute in Hk. discriminate.
    + vm_compute in Hk. discriminate.
Qed.

Lemma valid_store_app (db : Database) (new : list Memory) (rows : list Memory) :
  valid_store db -> rows = memories db ++ new ->
  Forall (fun m => in_unit (m_confidence m) = true /\ in_unit (m_weight m) = true) new ->
  Forall (fun m => in_unit (m_confidence m) = true /\ in_unit (m_weight m) = true) rows.
Proof. intros Hv -> Hn. apply Forall_app_2; assumption. Qed.

Lemma db_update_memory_valid (db : Database) (memory_id : nat) (u : MemoryUpdates) :
  valid_store db ->
  (forall c, u_confidence u = Some c -> in_unit c = true) ->
  (forall w, u_weight u = Some w -> in_unit w = true) ->
  valid_store (snd (db_update_memory db memory_id u)).
Proof.
  intros Hv Hc Hw. unfold db_update_memory. cbv zeta.
  assert (Hrows : Forall (fun m => in_unit (m_confidence m) = true
                                   /\ in_unit (m_weight m) = true)
                    (map (fun row => if (m_id row =? memory_id)%nat
                                     then apply_updates (clock db) u row else row)
                         (memories db))).
  { apply Forall_map. eapply Forall_impl; [exact Hv|].
    intros row [Hrc Hrw]. cbn beta.
    destruct (m_id row =? memory_id)%nat; [|split; assumption].
    cbn [apply_updates m_confidence m_weight].
    destruct (u_confidence u) as [c|] eqn:Ec; destruct (u_weight u) as [w|] eqn:Ew;
      cbn [default from_option id]; split; auto. }
  destruct (filter _ _); exact Hrows.
Qed.

Lemma valid_store_row (db : Database) (m : Memory) :
  valid_store db -> In m (memories db) ->
  (0 <= m_confidence m <= 1)%Q /\ (0 <= m_weight m <= 1)%Q.
Proof.
  intros Hv Hin. unfold valid_store in Hv.
  destruct (proj1 (List.Forall_forall _ _) Hv m Hin) as [Hc Hw].
  split; apply in_unit_elim; assumption.
Qed.

(** X10.  The operations of the engine keep every confidence and weight of the
    store in [0,1]; [update_memory] does so for a new confidence in [0,1]. *)
Theorem store_stays_valid (user_id key text source category : str) (value : pyval)
    (confidence : Q) (needs_confirmation : bool) (current_year : Z) (db : Database) :
  valid_store db ->
  valid_store (snd (_store_memory user_id key value confidence source category
                                  needs_confirmation db))
  /\ valid_store (snd (extract_and_store_memories user_id text source current_year db))
  /\ valid_store (snd (confirm_memory user_id key db))
  /\ ((0 <= confidence <= 1)%Q ->
      valid_store (snd (update_memory user_id key value confidence source db))).
Proof.
  intros Hv. split; [|split; [|split]].
  - destruct (store_memory_result user_id key value confidence source category
                needs_confirmation db)
      as [-> | (m & -> & _ & _ & _ & Hc & _ & _ & Hw & _ & Hunit)]; [exact Hv|].
    unfold valid_store. cbn [snd memories].
    apply Forall_app_2; [exact Hv|]. constructor; [|constructor].
    split; [rewrite Hc; exact Hunit|].
    rewrite Hw. apply in_unit_true; apply category_config_bounds.
  - unfold extract_and_store_memories. cbv zeta.
    destruct (store_all_appends user_id source (py "personal_info") false
                (_extract_personal_info text current_year) ([], db))
      as (n1 & _ & M1 & P1).
    set (st1 := store_all user_id source (py "personal_info") false _ ([], db)) in *.
    destruct (store_all_appends user_id source (py "preferences") false
                (_extract_preferences text) st1) as (n2 & _ & M2 & P2).
    set (st2 := store_all user_id source (py "preferences") false _ st1) in *.
    destruct (store_all_appends user_id source (py "health_info") true
                (_extract_health_info text) st2) as (n3 & _ & M3 & P3).
    cbn [snd] in M1. unfold valid_store. rewrite M3, M2, M1.
    repeat apply Forall_app_2; [exact Hv | | |];
      (eapply Forall_impl; [eassumption|]);
      intros m (_ & _ & _ & A & B & _); split; assumption.
  - unfold confirm_memory.
    destruct (find_key key (db_get_user_memories db user_id)) as [m|] eqn:Ef;
      [|exact Hv].
    destruct (m_needs_confirmation m); [|exact Hv].
    destruct (find_key_row _ _ _ _ Ef) as (Hin & _ & _).
    destruct (valid_store_row db m Hv Hin) as [Hc Hw].
    match goal with
    | |- context [db_update_memory db ?i ?u] =>
        pose proof (db_update_memory_valid db i u Hv) as Hu;
        destruct (db_update_memory db i u) as [[updated|e] db']
    end; cbn [snd] in *; apply Hu;
      cbn [u_confidence u_weight]; intros q Hq; injection Hq as <-;
      apply in_unit_true; unfold py_min;
      destruct (Qlt_le_dec 1.0 _); lra.
  - intros Hrange. unfold update_memory.
    destruct (find_key key (db_get_user_memories db user_id)) as [m|] eqn:Ef.
    + destruct (find_key_row _ _ _ _ Ef) as (Hin & _ & _).
      destruct (valid_store_row db m Hv Hin) as [Hc Hw].
      match goal with
      | |- context [db_update_memory db ?i ?u] =>
          pose proof (db_update_memory_valid db i u Hv) as Hu;
          destruct (db_update_memory db i u) as [[updated|e] db']
      end; cbn [snd] in *; apply Hu;
        cbn [u_confidence u_weight]; intros q Hq; injection Hq as <-;
        apply in_unit_true; try (unfold py_min; destruct (Qlt_le_dec 1.0 _));
        try qlra; try lra.
    + destruct (store_memory_result user_id key value confidence source
                  (py "context") false db)
        as [-> | (m & -> & _ & _ & _ & Hc & _ & _ & Hw & _ & Hunit)]; [exact Hv|].
      unfold valid_store. cbn [snd memories].
      apply Forall_app_2; [exact Hv|]. constructor; [|constructor].
      split; [rewrite Hc; exact Hunit|].
      rewrite Hw. apply in_unit_true; apply category_config_bounds.
Qed.

Lemma store_stays_valid_witness :
  valid_store
    (snd (update_memory (py "u1") (py "context.topic") (VStr (py "son")) 0.6
            (py "chat") empty_db)).
Proof.
  apply (store_stays_valid (py "u1") (py "context.topic") [] (py "chat") []
           (VStr (py "son")) 0.6 false 2025 empty_db).
  - constructor.
  - lra.
Defined.

(** X11.  Confirming a fact.  Without a fact under the key nothing is returned
    and nothing changes; a fact that needs no confirmation is returned as it
    is; one that does (with confidence and weight not negative) comes back
    confirmed at the time of the store, with confidence and weight raised by
    0.2 and capped at 1.0. *)
Theorem confirm_memory_cases (user_id key : str) (db : Database) :
  (find_key key (db_get_user_memories db user_id) = None ->
   confirm_memory user_id key db = (None, db))
  /\ (forall m,
        find_key key (db_get_user_memories db user_id) = Some m ->
        m_needs_confirmation m = false ->
        confirm_memory user_id key db = (Some m, db))
  /\ (forall m,
        find_key key (db_get_user_memories db user_id) = Some m ->
        m_needs_confirmation m = true ->
        (0 <= m_confidence m)%Q -> (0 <= m_weight m)%Q ->
        exists updated db',
          confirm_memory user_id key db = (Some updated, db')
          /\ m_needs_confirmation updated = false
          /\ m_confirmed_at updated = Some (clock db)
          /\ (m_confidence updated == Qmin (m_confidence m + 0.2) 1.0)%Q
          /\ (m_weight updated == Qmin (m_weight m + 0.2) 1.0)%Q
          /\ length (memories db') = length (memories db)).
Proof.
  split; [|split].
  - intros H. unfold confirm_memory. rewrite H. reflexivity.
  - intros m H Hn. unfold confirm_memory. rewrite H, Hn. reflexivity.
  - intros m H Hn Hc Hw. unfold confirm_memory. rewrite H, Hn.
    destruct (find_key_row _ _ _ _ H) as (Hin & _ & _).
    set (updates := {| u_value := None;
                       u_confidence := Some (py_min (m_confidence m + 0.2) 1.0);
                       u_weight := Some (py_min (m_weight m + 0.2) 1.0);
                       u_source := None;
                       u_needs_confirmation := Some false;
                       u_confirmed_at := Some (clock db) |}).
    destruct (db_update_memory_row db (m_id m) updates m Hin eq_refl)
      as (row & _ & Hrow).
    assert (Hlen : length (memories (snd (db_update_memory db (m_id m) updates)))
                   = length (memories db)).
    { unfold db_update_memory. cbv zeta.
      destruct (filter _ _); cbn [snd memories]; apply length_map. }
    destruct (db_update_memory db (m_id m) updates) as [updated db'].
    cbn [fst snd] in Hrow, Hlen. subst updated.
    assert (Hmc : (0 <= py_min (m_confidence m + 0.2) 1.0 <= 1)%Q)
      by (unfold py_min; destruct (Qlt_le_dec 1.0 (m_confidence m + 0.2)); lra).
    assert (Hmw : (0 <= py_min (m_weight m + 0.2) 1.0 <= 1)%Q)
      by (unfold py_min; destruct (Qlt_le_dec 1.0 (m_weight m + 0.2)); lra).
    unfold validate_Memory.
    cbn [apply_updates m_confidence m_weight updates u_confidence u_weight
         default from_option id].
    rewrite (in_unit_true (py_min (m_confidence m + 0.2) 1.0)) by apply Hmc.
    rewrite (in_unit_true (py_min (m_weight m + 0.2) 1.0)) by apply Hmw.
    cbn [andb]. eexists. eexists. split; [reflexivity|].
    cbn [m_needs_confirmation m_confirmed_at m_confidence m_weight
         u_needs_confirmation u_confirmed_at default from_option id].
    repeat split; try apply py_min_Qmin. exact Hlen.
Qed.

Lemma confirm_memory_cases_witness :
  confirm_memory (py "u1") (py "health_info.allergies") empty_db = (None, empty_db).
Proof.
  apply (confirm_memory_cases (py "u1") (py "health_info.allergies") empty_db).
  reflexivity.
Defined.

(** ** What the extraction stores *)













(** ** Routing on type and intent *)

(** X13.  A purchase signal in the intent ("mua" or "giá", in any case)
    sends the message to SALES whatever its type, greetings and complaints
    apart, when the store has no conversation under the id: it comes before
    the rules for personal_info and followup.  For a conversation that
    exists the type rules are never reached: the router raises
    [AttributeError] on [ConversationState.DISCOVERY]. *)
Theorem route_purchase_signal (svc : Services) (d : gmap str pyval)
    (user_id conversation_id : str) (message_type intent : str) :
  no_handoff d ->
  d !! py "type" = Some (VStr message_type) ->
  message_type <> py "greeting" -> message_type <> py "complaint" ->
  d !! py "intent" = Some (VStr intent) ->
  contains (py "mua") (lower intent) || contains (py "giá") (lower intent) = true ->
  (db_get_conversation svc conversation_id = Ok None ->
   _route_to_agent svc (VDict d) user_id conversation_id = Ok AgentDecision.SALES)
  /\ (forall c,
        db_get_conversation svc conversation_id = Ok (Some c) ->
        _route_to_agent svc (VDict d) user_id conversation_id
        = Raise AttributeError).
Proof.
  intros [Hrh Hurg] Htype Hg Hc Hintent Hsignal.
  assert (Htyped : route_by_type svc (VDict d) user_id conversation_id
                   = Ok AgentDecision.SALES).
  { unfold route_by_type, py_get, bind. rewrite Htype, Hintent.
    cbn [default from_option id is_str py_lower].
    unfold str_eqb.
    rewrite (bool_decide_eq_false_2 (message_type = py "greeting")) by assumption.
    rewrite (bool_decide_eq_false_2 (message_type = py "complaint")) by assumption.
    destruct (bool_decide (message_type = py "purchase_intent")); [reflexivity|].
    rewrite Hsignal. reflexivity. }
  split.
  - intros Hconv. unfold _route_to_agent, py_get, bind.
    rewrite Hrh, Hurg, Hconv. cbn [orb]. exact Htyped.
  - intros c Hconv. unfold _route_to_agent, py_get, bind.
    rewrite Hrh, Hurg, Hconv. reflexivity.
Qed.

Lemma route_purchase_signal_witness :
  _route_to_agent (repository_services None)
    (VDict (<[py "type" := VStr (py "followup")]>
             {[py "intent" := VStr (py "Hỏi GIÁ son")]}))
    (py "u1") (py "c1")
  = Ok AgentDecision.SALES.
Proof.
  apply (route_purchase_signal (repository_services None)
           (<[py "type" := VStr (py "followup")]>
              {[py "intent" := VStr (py "Hỏi GIÁ son")]})
           (py "u1") (py "c1") (py "followup") (py "Hỏi GIÁ son")).
  - split; vm_compute; reflexivity.
  - vm_compute. reflexivity.
  - vm_compute. discriminate.
  - vm_compute. discriminate.
  - vm_compute. reflexivity.
  - vm_compute. reflexivity.
  - reflexivity.
Defined.




(** ** The context of a user *)

Lemma context_step_lookup (context : gmap str (gmap str FactView)) (memory : Memory)
    (category : str) :
  is_Some (context_step context memory !! category) <-> is_Some (context !! category).
Proof.
  unfold context_step.
  destruct (split_dot (m_key memory)) as [[c k]|]; [|reflexivity].
  destruct (context !! c) as [facts|] eqn:E; [|reflexivity].
  destruct (decide (c = category)) as [<- | Hne].
  - rewrite lookup_insert_eq, E. split; intros _; eexists; reflexivity.
  - rewrite lookup_insert_ne by assumption. reflexivity.
Qed.

Lemma context_fold_categories (l : list Memory)
    (context : gmap str (gmap str FactView)) (category : str) :
  is_Some (fold_left context_step l context !! category)
  <-> is_Some (context !! category).
Proof.
  revert context. induction l as [|m l IH]; intros context; cbn [fold_left].
  - reflexivity.
  - rewrite IH. apply context_step_lookup.
Qed.

Lemma empty_context_lookup (category : str) :
  is_Some (empty_context !! category) <-> In category context_categories.
Proof.
  unfold empty_context. rewrite <- list_elem_of_In.
  set (l := map (fun c : str => (c, (∅ : gmap str FactView))) context_categories).
  assert (Hfst : l.*1 = context_categories).
  { unfold l. generalize context_categories. intros cs.
    induction cs as [|c cs IH]; [reflexivity|].
    cbn [map fmap list_fmap fst] in *. f_equal. exact IH. }
  pose proof (not_elem_of_list_to_map (M := gmap str) l category) as Hnone.
  rewrite Hfst in Hnone. rewrite <- not_eq_None_Some.
  split.
  - intros Hs. apply dec_stable. intros Hn. apply Hs, Hnone, Hn.
  - intros Hin Hn. apply Hnone in Hn. exact (Hn Hin).
Qed.

Lemma user_context_has (db : Database) (user_id category : str) :
  is_Some (get_user_context db user_id !! category)
  <-> In category context_categories.
Proof.
  unfold get_user_context. rewrite context_fold_categories.
  apply empty_context_lookup.
Qed.

Lemma user_context_no_lifestyle (db : Database) (user_id : str) :
  get_user_context db user_id !! py "lifestyle" = None.
Proof.
  apply eq_None_not_Some. intros Hin. apply user_context_has in Hin.
  vm_compute in Hin. repeat destruct Hin as [Hin | Hin]; try discriminate.
  contradiction.
Qed.

(** X15.  The context has the six categories of the engine and no other, whatever
    the store holds: a key without a dot, or with another word before the
    dot, is left out, and there is never a "lifestyle" entry. *)
Theorem get_user_context_categories (db : Database) (user_id category : str) :
  (is_Some (get_user_context db user_id !! category)
   <-> In category context_categories)
  /\ get_user_context db user_id !! py "lifestyle" = None.
Proof.
  split; [apply user_context_has | apply user_context_no_lifestyle].
Qed.

Lemma empty_context_facts (category : str) (facts : gmap str FactView) :
  empty_context !! category = Some facts -> facts = ∅.
Proof.
  unfold empty_context. intros H. apply elem_of_list_to_map_2 in H.
  apply list_elem_of_In, in_map_iff in H as (c & Hc & _).
  injection Hc as _ <-. reflexivity.
Qed.

Lemma context_of_step (rows : list Memory) (context : gmap str (gmap str FactView))
    (memory : Memory) :
  context_of rows context -> context_of (rows ++ [memory]) (context_step context memory).
Proof.
  intros Hinv category facts key. unfold context_step.
  assert (Hkeep : forall facts',
             context !! category = Some facts' ->
             split_dot (m_key memory) <> Some (category, key) ->
             match facts' !! key with
             | Some v =>
                 exists m, In m (rows ++ [memory])
                           /\ split_dot (m_key m) = Some (category, key)
                           /\ v = view_of m
             | None =>
                 forall m, In m (rows ++ [memory]) ->
                           split_dot (m_key m) <> Some (category, key)
             end).
  { intros facts' Hl Hne. specialize (Hinv category facts' key Hl).
    destruct (facts' !! key) as [v|].
    - destruct Hinv as (m & Hin & Hk & Hv). exists m.
      split; [apply in_or_app; left; exact Hin | split; assumption].
    - intros m Hin. apply in_app_or in Hin as [Hin | [<- | []]];
        [apply Hinv, Hin | exact Hne]. }
  destruct (split_dot (m_key memory)) as [[c0 k0]|] eqn:Es.
  - destruct (context !! c0) as [f0|] eqn:E0.
    + destruct (decide (c0 = category)) as [-> | Hc].
      * rewrite lookup_insert_eq. intros [= <-].
        destruct (decide (k0 = key)) as [-> | Hk].
        -- rewrite lookup_insert_eq. exists memory.
           split; [apply in_or_app; right; left; reflexivity|].
           split; [exact Es | reflexivity].
        -- rewrite lookup_insert_ne by exact Hk.
           apply (Hkeep f0 E0). intros [= Heq]. exact (Hk Heq).
      * rewrite lookup_insert_ne by exact Hc. intros Hl.
        apply (Hkeep facts Hl). intros [= Heq _]. exact (Hc Heq).
    + intros Hl. apply (Hkeep facts Hl). intros [= Heq _]. subst c0.
      rewrite E0 in Hl. discriminate.
  - intros Hl. apply (Hkeep facts Hl). discriminate.
Qed.

Lemma context_of_fold (l rows : list Memory) (context : gmap str (gmap str FactView)) :
  context_of rows context -> context_of (rows ++ l) (fold_left context_step l context).
Proof.
  revert rows context. induction l as [|m l IH]; intros rows context Hinv;
    cbn [fold_left].
  - rewrite app_nil_r. exact Hinv.
  - change (m :: l) with ([m] ++ l). rewrite app_assoc.
    apply IH, context_of_step, Hinv.
Qed.

Lemma insert_by_weight_intro (m x : Memory) (l : list Memory) :
  x = m \/ In x l -> In x (insert_by_weight m l).
Proof.
  induction l as [|y l IH]; cbn [insert_by_weight].
  - intros [-> | []]. left. reflexivity.
  - destruct (Qlt_le_dec (m_weight m) (m_weight y)).
    + intros [-> | [-> | H]].
      * right. apply IH. left. reflexivity.
      * left. reflexivity.
      * right. apply IH. right. exact H.
    + intros [-> | H]; [left; reflexivity | right; exact H].
Qed.

Lemma sort_by_weight_intro (x : Memory) (l : list Memory) :
  In x l -> In x (fold_right insert_by_weight [] l).
Proof.
  induction l as [|y l IH]; cbn [fold_right]; [intros []|].
  intros [-> | H]; apply insert_by_weight_intro.
  - left. reflexivity.
  - right. apply IH, H.
Qed.

(** The rows that [db_get_user_memories] returns are the rows of the user. *)
Lemma user_memories_In (db : Database) (user_id : str) (m : Memory) :
  In m (db_get_user_memories db user_id)
  <-> In m (memories db) /\ m_user_id m = user_id.
Proof.
  unfold db_get_user_memories. split.
  - intros Hin. apply sort_by_weight_In in Hin.
    apply list_elem_of_In, list_elem_of_filter in Hin as [Huser Hin].
    apply list_elem_of_In in Hin. apply str_eqb_eq in Huser. auto.
  - intros [Hin Huser]. apply sort_by_weight_intro, list_elem_of_In.
    apply list_elem_of_filter. split; [|apply list_elem_of_In, Hin].
    unfold str_eqb. apply bool_decide_eq_true_2, Huser.
Qed.

Lemma user_context_of (db : Database) (user_id : str) :
  context_of (db_get_user_memories db user_id) (get_user_context db user_id).
Proof.
  unfold get_user_context.
  apply (context_of_fold (db_get_user_memories db user_id) [] empty_context).
  intros category facts key Hl. apply empty_context_facts in Hl. subst facts.
  rewrite lookup_empty. intros m [].
Qed.

(** X16.  The entries of a category of the context are the facts of the user's
    rows filed under it: an entry is the view of a row of the user whose key
    is the category, a dot and the entry's key, and a key without an entry
    has no such row. *)
Theorem get_user_context_facts (db : Database) (user_id category key : str)
    (facts : gmap str FactView) :
  get_user_context db user_id !! category = Some facts ->
  match facts !! key with
  | Some v =>
      exists m, In m (memories db) /\ m_user_id m = user_id
                /\ split_dot (m_key m) = Some (category, key) /\ v = view_of m
  | None =>
      forall m, In m (memories db) -> m_user_id m = user_id ->
                split_dot (m_key m) <> Some (category, key)
  end.
Proof.
  intros Hl. pose proof (user_context_of db user_id category facts key Hl) as H.
  destruct (facts !! key) as [v|].
  - destruct H as (m & Hin & Hk & Hv). apply user_memories_In in Hin as [Hin Hu].
    exists m. auto.
  - intros m Hin Hu. apply H, user_memories_In. auto.
Qed.

Lemma get_user_context_facts_witness :
  match category_of (get_user_context name_db (py "u1")) (py "personal_info")
        !! py "name" with
  | Some v =>
      exists m, In m (memories name_db) /\ m_user_id m = py "u1"
                /\ split_dot (m_key m) = Some (py "personal_info", py "name")
                /\ v = view_of m
  | None =>
      forall m, In m (memories name_db) -> m_user_id m = py "u1" ->
                split_dot (m_key m) <> Some (py "personal_info", py "name")
  end.
Proof.
  apply (get_user_context_facts name_db (py "u1") (py "personal_info") (py "name")).
  vm_compute. reflexivity.
Defined.




(** ** The discovery agent *)

Lemma py_min_unit (q : Q) : (0 <= q)%Q -> (0 <= py_min q 1.0 <= 1)%Q.
Proof. intros H. unfold py_min. destruct (Qlt_le_dec 1.0 q); lra. Qed.

(** One turn of the loop of [_calculate_completeness] adds the weight to the
    total and between nothing and the weight to the filled part; the
    lifestyle turn adds nothing when the context has no lifestyle fact. *)
Lemma completeness_step_bounds (context : gmap str (gmap str FactView))
    (tw fw : Q) (category : str) (weight : Q) :
  (0 <= weight)%Q ->
  fst (completeness_step context (tw, fw) (category, weight)) = (tw + weight)%Q
  /\ (fw <= snd (completeness_step context (tw, fw) (category, weight))
      <= fw + weight)%Q
  /\ (category = py "lifestyle" -> category_of context category = ∅ ->
      snd (completeness_step context (tw, fw) (category, weight)) = fw).
Proof.
  intros Hw. unfold completeness_step.
  destruct (str_eqb category (py "personal_info")) eqn:E1.
  { apply str_eqb_eq in E1. 
    split; [reflexivity|]. split.
    - cbn [snd].
      destruct (has _ (py "name") || has _ (py "age"));
        destruct (has _ (py "name") && has _ (py "age")); lra.
    - intros Hc. rewrite Hc in E1. vm_compute in E1. discriminate. }
  destruct (str_eqb category (py "health_info")) eqn:E2.
  { apply str_eqb_eq in E2.
    split; [reflexivity|]. split.
    - cbn [snd].
      destruct (has _ (py "skin_type") || has _ (py "pregnancy_status"));
        destruct (has _ (py "allergies")); lra.
    - intros Hc. rewrite Hc in E2. vm_compute in E2. discriminate. }
  destruct (str_eqb category (py "preferences")) eqn:E3.
  { apply str_eqb_eq in E3.
    split; [reflexivity|]. split.
    - cbn [snd].
      destruct (product_prefs _); destruct (has _ (py "budget_range")); lra.
    - intros Hc. rewrite Hc in E3. vm_compute in E3. discriminate. }
  destruct (str_eqb category (py "lifestyle")) eqn:E4.
  { split; [reflexivity|]. split.
    - cbn [snd]. destruct (negb _); [|lra].
      pose proof (of_nat_nonneg (size (category_of context category))) as Hn.
      assert (H0 : (0 <= of_nat (size (category_of context category)) * 0.3)%Q)
        by lra.
      apply py_min_unit in H0.
      set (x := py_min _ 1.0) in *. nra.
    - intros _ He. rewrite He. cbn [snd].
      rewrite bool_decide_eq_true_2 by reflexivity. reflexivity. }
  split; [reflexivity|]. split; [cbn [snd]; lra|]. intros _ _. reflexivity.
Qed.

(** The score for a filled part between nothing and [cap], of a total of 1. *)
Lemma completeness_score (context : gmap str (gmap str FactView)) :
  exists filled,
    (_calculate_completeness context == py_min filled 1.0)%Q
    /\ (0 <= filled <= 1)%Q
    /\ (category_of context (py "lifestyle") = ∅ -> (filled <= 0.8)%Q).
Proof.
  unfold _calculate_completeness, category_weights. cbn [fold_left].
  destruct (completeness_step_bounds context 0 0 (py "personal_info") 0.3)
    as (T1 & F1 & _); [lra|].
  destruct (completeness_step context (0, 0)%Q (py "personal_info", 0.3%Q))
    as [t1 f1]. cbn [fst snd] in T1, F1.
  destruct (completeness_step_bounds context t1 f1 (py "health_info") 0.25)
    as (T2 & F2 & _); [lra|].
  destruct (completeness_step context (t1, f1) (py "health_info", 0.25%Q))
    as [t2 f2]. cbn [fst snd] in T2, F2.
  destruct (completeness_step_bounds context t2 f2 (py "preferences") 0.25)
    as (T3 & F3 & _); [lra|].
  destruct (completeness_step context (t2, f2) (py "preferences", 0.25%Q))
    as [t3 f3]. cbn [fst snd] in T3, F3.
  destruct (completeness_step_bounds context t3 f3 (py "lifestyle") 0.2)
    as (T4 & F4 & L4); [lra|].
  destruct (completeness_step context (t3, f3) (py "lifestyle", 0.2%Q))
    as [t4 f4]. cbn [fst snd] in T4, F4, L4.
  assert (Ht : (t4 == 1)%Q) by (subst; vm_compute; reflexivity).
  exists f4. split; [|split].
  - destruct (Qlt_le_dec 0 t4) as [_ | Hle]; [|lra].
    assert (Hd : (f4 / t4 == f4)%Q) by (rewrite Ht; unfold Qdiv; change (/ 1)%Q with 1%Q; ring).
    unfold py_min.
    destruct (Qlt_le_dec 1.0 (f4 / t4)); destruct (Qlt_le_dec 1.0 f4); lra.
  - lra.
  - intros He. rewrite (L4 eq_refl He). lra.
Qed.

(** X18.  The completeness score lies between 0 and 1, whatever the context. *)
Theorem calculate_completeness_range (context : gmap str (gmap str FactView)) :
  (0 <= _calculate_completeness context <= 1)%Q.
Proof.
  destruct (completeness_score context) as (filled & Hc & Hf & _).
  rewrite Hc. apply py_min_unit. lra.
Qed.

Lemma user_lifestyle_empty (db : Database) (user_id : str) :
  category_of (get_user_context db user_id) (py "lifestyle") = ∅.
Proof.
  unfold category_of. rewrite user_context_no_lifestyle. reflexivity.
Qed.

Lemma missing_lifestyle (context : gmap str (gmap str FactView)) :
  category_of context (py "lifestyle") = ∅ ->
  exists rest, _identify_missing_info context = rest ++ [py "lifestyle"].
Proof.
  intros He. unfold _identify_missing_info. cbv zeta. rewrite He.
  rewrite bool_decide_eq_true_2 by reflexivity. eexists. reflexivity.
Qed.

(** X19.  The profile of a user of the memory engine is never complete: the
    context has no lifestyle category, so lifestyle is always reported
    missing and the score stays at 0.8 or below. *)
Theorem profile_never_complete (db : Database) (user_id : str) :
  In (py "lifestyle") (_identify_missing_info (get_user_context db user_id))
  /\ (_calculate_completeness (get_user_context db user_id) <= 0.8)%Q.
Proof.
  split.
  - destruct (missing_lifestyle _ (user_lifestyle_empty db user_id)) as [rest ->].
    apply in_or_app. right. left. reflexivity.
  - destruct (completeness_score (get_user_context db user_id))
      as (filled & Hc & Hf & Hl).
    specialize (Hl (user_lifestyle_empty db user_id)).
    rewrite Hc. unfold py_min. destruct (Qlt_le_dec 1.0 filled); lra.
Qed.

Lemma str_in_In (x : str) (l : list str) : str_in x l = true <-> In x l.
Proof.
  unfold str_in. rewrite existsb_exists. split.
  - intros (y & Hin & Hy). apply str_eqb_eq in Hy. subst y. exact Hin.
  - intros Hin. exists x. split; [exact Hin|].
    unfold str_eqb. apply bool_decide_eq_true_2. reflexivity.
Qed.

(** What is reported missing is one of the four categories of questions. *)
Lemma missing_info_categories (context : gmap str (gmap str FactView)) (c : str) :
  In c (_identify_missing_info context) -> In c priority_order.
Proof.
  unfold _identify_missing_info. cbv zeta.
  destruct (negb _ && negb _); destruct (negb _ && negb _);
    destruct (product_prefs _); destruct (bool_decide _);
    cbn [app In priority_order]; intuition.
Qed.

Lemma first_question_some (c : str) :
  In c priority_order -> c <> [] /\ is_Some (first_question c).
Proof.
  intros [<- | [<- | [<- | [<- | []]]]]; (split; [discriminate|]);
    eexists; vm_compute; reflexivity.
Qed.

(** X20.  [get_discovery_question] always has a question for a user of the memory
    engine: the first question of a missing category, which is the category
    asked for when that one is missing. *)
Theorem get_discovery_question_some (db : Database) (user_id : str)
    (category : option str) :
  exists target question,
    get_discovery_question db user_id category = Some question
    /\ first_question target = Some question
    /\ In target (_identify_missing_info (get_user_context db user_id))
    /\ (forall c, category = Some c ->
                  In c (_identify_missing_info (get_user_context db user_id)) ->
                  target = c).
Proof.
  unfold get_discovery_question. cbv zeta.
  set (missing := _identify_missing_info (get_user_context db user_id)).
  assert (Hl : In (py "lifestyle") missing).
  { destruct (missing_lifestyle _ (user_lifestyle_empty db user_id)) as [rest Hr].
    unfold missing. rewrite Hr. apply in_or_app. right. left. reflexivity. }
  assert (Hfind : exists target,
             List.find (fun cat => str_in cat missing) priority_order = Some target
             /\ In target missing).
  { destruct (List.find (fun cat => str_in cat missing) priority_order)
      as [target|] eqn:Ef.
    - exists target. split; [reflexivity|].
      apply find_some in Ef as [_ Ht]. apply str_in_In, Ht.
    - exfalso. 
      pose proof (find_none _ _ Ef (py "lifestyle")) as Hn. cbv beta in Hn.
      rewrite (proj2 (str_in_In _ _) Hl) in Hn.
      enough (false = true) by discriminate. symmetry. apply Hn.
      vm_compute. tauto. }
  destruct Hfind as (target & Hfind & Ht).
  assert (Hq : forall t, In t missing -> exists q, first_question t = Some q).
  { intros t Hin. apply missing_info_categories, first_question_some in Hin
      as [_ [q Hq]]. exists q. exact Hq. }
  destruct missing as [|m0 missing'] eqn:Em; [destruct Hl|]. rewrite <- Em in *.
  destruct category as [c|].
  - destruct (nonempty c && str_in c missing) eqn:Ec.
    + apply andb_prop in Ec as [_ Hc]. apply str_in_In in Hc.
      destruct (Hq c Hc) as [q Hqc]. exists c, q. rewrite Hqc.
      repeat split; try assumption. intros c' [= <-] _. reflexivity.
    + rewrite Hfind. destruct (Hq target Ht) as [q Hqt]. exists target, q.
      rewrite Hqt. repeat split; try assumption.
      intros c' [= <-] Hin. exfalso.
      apply andb_false_iff in Ec as [Ec | Ec].
      * apply nonempty_false in Ec. subst c.
        apply missing_info_categories, first_question_some in Hin as [Hne _].
        apply Hne. reflexivity.
      * apply str_in_In in Hin. rewrite Hin in Ec. discriminate.
  - rewrite Hfind. destruct (Hq target Ht) as [q Hqt]. exists target, q.
    rewrite Hqt. repeat split; try assumption. intros c' [=].
Qed.

(** X21.  [should_continue_discovery] agrees with [_determine_next_action] on
    the same score: discovery goes on exactly when the next action is
    "continue_discovery" or "targeted_questions". *)
Theorem should_continue_next_action (db : Database) (user_id : str) :
  should_continue_discovery db user_id = true
  <-> (_determine_next_action
         (_calculate_completeness (get_user_context db user_id))
       = py "continue_discovery"
       \/ _determine_next_action
            (_calculate_completeness (get_user_context db user_id))
          = py "targeted_questions").
Proof.
  unfold should_continue_discovery, _determine_next_action. cbv zeta.
  unfold threshold_basic, threshold_good, threshold_excellent.
  set (c := _calculate_completeness (get_user_context db user_id)).
  destruct (Qlt_le_dec c 0.6) as [H6 | H6].
  - split; [intros _ | reflexivity].
    destruct (Qlt_le_dec c 0.3); [left | right]; reflexivity.
  - split; [discriminate|].
    destruct (Qlt_le_dec c 0.3) as [H3 | H3]; [lra|].
    destruct (Qlt_le_dec c 0.8); intros [H | H]; vm_compute in H; discriminate.
Qed.

Lemma get_discovery_question_some_witness :
  exists question,
    get_discovery_question name_db (py "u1") (Some (py "health_info"))
    = Some question
    /\ first_question (py "health_info") = Some question.
Proof.
  destruct (get_discovery_question_some name_db (py "u1") (Some (py "health_info")))
    as (target & question & Hq & Hf & _ & Hc).
  exists question. split; [exact Hq|].
  rewrite <- (Hc (py "health_info") eq_refl); [exact Hf|].
  vm_compute. tauto.
Defined.

Lemma suggestions_fold (categories : list str) (suggestions : list str) :
  Forall (fun c => In c priority_order) categories ->
  exists questions,
    fold_left
      (fun suggestions category =>
         match first_question category with
         | Some q => suggestions ++ [q]
         | None => suggestions
         end)
      categories suggestions
    = suggestions ++ questions
    /\ Forall2 (fun c q => first_question c = Some q) categories questions.
Proof.
  intros H. revert suggestions.
  induction H as [|c categories Hc _ IH]; intros suggestions; cbn [fold_left].
  - exists []. rewrite app_nil_r. split; [reflexivity | constructor].
  - destruct (first_question_some c Hc) as [_ [q Hq]]. rewrite Hq.
    destruct (IH (suggestions ++ [q])) as (questions & Heq & Hall).
    exists (q :: questions). rewrite Heq, <- app_assoc.
    split; [reflexivity | constructor; assumption].
Qed.

(** X22.  The suggested questions are the first questions of the first two
    missing categories, in their order: two at most, and as many as there
    are missing categories when these are fewer. *)
Theorem suggest_next_questions_first (context : gmap str (gmap str FactView)) :
  Forall2 (fun c q => first_question c = Some q)
          (take 2 (_identify_missing_info context))
          (_suggest_next_questions context).
Proof.
  unfold _suggest_next_questions. cbv zeta.
  destruct (suggestions_fold (take 2 (_identify_missing_info context)) [])
    as (questions & Heq & Hall).
  - apply List.Forall_forall. intros c Hin.
    apply (missing_info_categories context).
    apply list_elem_of_In. apply list_elem_of_In in Hin.
    exact (subseteq_take 2 _ c Hin).
  - rewrite Heq. exact Hall.
Qed.

(** ** The typing-simulation endpoint *)





(** X24.  A request without a message, or with one that counts as false, is not
    answered with the status 400 that the endpoint raises for it: the
    handler catches its own exception and answers 500. *)
Theorem simulate_typing_only_no_message (request : gmap str pyval) :
  truthy (default (VStr []) (request !! py "message")) = false ->
  simulate_typing_only request = inl (http_error 500).
Proof.
  intros H. unfold simulate_typing_only, simulate_typing_only_try. cbv zeta.
  rewrite H. reflexivity.
Qed.

Lemma simulate_typing_only_no_message_witness :
  simulate_typing_only {[ py "agent_type" := VStr (py "sales") ]}
  = inl (http_error 500).
Proof.
  apply (simulate_typing_only_no_message {[ py "agent_type" := VStr (py "sales") ]}).
  vm_compute. reflexivity.
Defined.
